(** * Market sentiment analyzer: aggregation pipeline

    A shallow embedding of [backend/sentiment_analyzer.py] (class
    [MarketSentimentAnalyzer]) and of the two pipeline drivers of
    [backend/app.py], with the properties of the aggregation pipeline:
    deduplication, classification, per-category statistics, asset
    attribution, report assembly, persistence and the trigger lock.

    Python values are modelled as the code sees them: JSON fields are
    [None], a string, or absent; integers are [Z]; floating point values
    live in an abstract type with the operations the code calls on them;
    dictionaries are association lists in insertion order; exceptions are
    the [Raise] branch of an error monad. *)

From Stdlib Require Import ZArith List String Ascii Bool Lia QArith Qround.
From Stdlib Require Import Permutation Sorted.
Import ListNotations.
Local Open Scope string_scope.
Local Open Scope Z_scope.

(* ================================================================== *)
(** ** Python runtime: exceptions, values, dictionaries *)
(* ================================================================== *)

Module Py.

(** The exception classes that occur on the modelled paths. *)
Inductive exn : Type :=
| KeyError
| TypeError
| AttributeError
| ZeroDivisionError.

(** A computation either returns a value or raises. *)
Inductive result (A : Type) : Type :=
| Ok (a : A)
| Raise (e : exn).
Arguments Ok {A} a.
Arguments Raise {A} e.

Definition bind {A B : Type} (m : result A) (k : A -> result B) : result B :=
  match m with
  | Ok a => k a
  | Raise e => Raise e
  end.

(** A JSON field value as the pipeline meets it: [null] or a string. *)
Inductive pyval : Type :=
| PyNone
| PyStr (s : string).

Definition pyval_eqb (a b : pyval) : bool :=
  match a, b with
  | PyNone, PyNone => true
  | PyStr s, PyStr t => String.eqb s t
  | _, _ => false
  end.

(** [str(v)] as used by an f-string. *)
Definition format (v : pyval) : string :=
  match v with
  | PyNone => "None"
  | PyStr s => s
  end.

(** An insertion-ordered dictionary. *)
Definition dict (K V : Type) : Type := list (K * V).

Section Dict.
Variables (K V : Type) (eqb : K -> K -> bool).

Fixpoint dict_get (k : K) (d : dict K V) : option V :=
  match d with
  | [] => None
  | (k', v) :: d' => if eqb k k' then Some v else dict_get k d'
  end.

(** [d[k] = v]: an existing key keeps its position and takes the new
    value, a new key is appended. *)
Fixpoint dict_set (k : K) (v : V) (d : dict K V) : dict K V :=
  match d with
  | [] => [(k, v)]
  | (k', v') :: d' =>
      if eqb k k' then (k', v) :: d' else (k', v') :: dict_set k v d'
  end.

Definition keys (d : dict K V) : list K := map fst d.
Definition values (d : dict K V) : list V := map snd d.
End Dict.
Arguments dict_get {K V} eqb k d.
Arguments dict_set {K V} eqb k v d.
Arguments keys {K V} d.
Arguments values {K V} d.

End Py.

Import Py.

Notation "x <- m ;; k" := (bind m (fun x => k))
  (at level 61, m at next level, right associativity).

(* ================================================================== *)
(** ** Data model *)
(* ================================================================== *)

(** The ['source'] field of an article: absent, [null], or an object whose
    ['name'] is absent or present. *)
Inductive source_field : Type :=
| SourceMissing
| SourceNull
| SourceObj (name : option pyval).

(** An article object as returned by the news API.  A field that is [None]
    here is a key that the object does not have. *)
Record RawArticle : Type := {
  raw_title : option pyval;
  raw_description : option pyval;
  raw_url : option pyval;
  raw_source : source_field
}.

(* ================================================================== *)
(** ** Deduplication (categorize_and_analyze, "Remover duplicatas") *)
(* ================================================================== *)

(** [{a['url']: a for a in all_articles}]: the subscript raises [KeyError]
    on an article without the key. *)
Fixpoint url_dict (all_articles : list RawArticle) (d : dict pyval RawArticle)
  : result (dict pyval RawArticle) :=
  match all_articles with
  | [] => Ok d
  | a :: rest =>
      match raw_url a with
      | None => Raise KeyError
      | Some u => url_dict rest (dict_set pyval_eqb u a d)
      end
  end.

(** [unique_articles = {...}.values()], as the list handed on. *)
Definition unique_articles (all_articles : list RawArticle) : result (list RawArticle) :=
  d <- url_dict all_articles [] ;; Ok (values d).

(* ================================================================== *)
(** ** The Python operations the analyzer calls but does not define *)
(* ================================================================== *)

(** A Python number: the statistics are an [int] on some paths and a
    [float] on others. *)
Inductive pynum (F : Type) : Type :=
| PInt (z : Z)
| PFloat (f : F).
Arguments PInt {F} z.
Arguments PFloat {F} f.

(** Floating point values and the library operations applied to them.
    They are kept abstract: the pipeline only moves their results around. *)
Class Runtime : Type := {
  float : Type;
  half : float;                              (* the literal 0.5 *)
  fdiv : Z -> Z -> float;                    (* int / int, divisor not 0 *)
  fmul : float -> Z -> float;                (* float * int *)
  round_nd : float -> Z -> float;            (* round(x, ndigits) on a float *)
  mean : list float -> float;                (* pandas Series.mean() *)
  num_ltb : pynum float -> pynum float -> bool;  (* x < y on numbers *)
  lower : string -> string                   (* str.lower() *)
}.

Section Numbers.
Context {R : Runtime}.

(** [a / b] on integers. *)
Definition py_truediv (a b : Z) : result float :=
  if b =? 0 then Raise ZeroDivisionError else Ok (fdiv a b).

(** [round(x, ndigits)] for [ndigits >= 0]: an [int] is returned as is. *)
Definition py_round (x : pynum float) (ndigits : Z) : pynum float :=
  match x with
  | PInt z => PInt z
  | PFloat f => PFloat (round_nd f ndigits)
  end.

End Numbers.

(** [needle in hay] on strings. *)
Fixpoint contains (needle hay : string) : bool :=
  if String.prefix needle hay then true
  else match hay with
       | EmptyString => false
       | String _ hay' => contains needle hay'
       end.

(** A Python [str] is kept as the bytes of its UTF-8 encoding; a byte
    [10xxxxxx] continues the character begun before it. *)
Definition is_continuation (c : ascii) : bool :=
  let n := nat_of_ascii c in ((128 <=? n) && (n <? 192))%nat.

(** [len(text)]: the number of characters. *)
Fixpoint py_len (text : string) : nat :=
  match text with
  | EmptyString => 0%nat
  | String c text' => if is_continuation c then py_len text' else S (py_len text')
  end.

(** [text[:n]]: the first [n] characters, each with all its bytes. *)
Fixpoint slice_to (n : nat) (text : string) : string :=
  match text with
  | EmptyString => EmptyString
  | String c text' =>
      if is_continuation c then String c (slice_to n text')
      else match n with
           | O => EmptyString
           | S n' => String c (slice_to n' text')
           end
  end.
Arguments slice_to : simpl never.

(* ================================================================== *)
(** ** The analyzer object and its collaborators *)
(* ================================================================== *)

Section Analyzer.
Context {R : Runtime}.

(** One call of the sentiment pipeline: it raises, or returns the first
    result's ['label'] and ['score']. *)
Inductive classifier_outcome : Type :=
| ClassifierRaises
| ClassifierResult (label : string) (score : float).

(** The attributes of [self] that the pipeline reads.  [sentiment_pipeline]
    stays [None] when [_initialize_sentiment_model] failed. *)
Record MarketSentimentAnalyzer : Type := {
  asset_categories : dict string (list string);
  sentiment_pipeline : option (string -> classifier_outcome)
}.

(** The ['articles'] member of a decoded response body. *)
Inductive articles_field : Type :=
| ArticlesAbsent
| ArticlesNull
| ArticlesList (articles : list RawArticle).

(** What [requests.get] followed by [raise_for_status] and [json()] gives
    for one query. [RequestException] stands for every error of that class:
    connection failure, timeout, an HTTP error status such as 429. *)
Inductive http_outcome : Type :=
| RequestException
| JsonObject (articles : articles_field)
| JsonNotObject.

(** The news API, queried by keyword. *)
Definition NewsSource : Type := string -> http_outcome.

(** [fetch_news]: only [RequestException] is caught. [data.get] needs an
    object, [len(articles)] needs a sized value. *)
Definition fetch_news (net : NewsSource) (keywords : string) : result (list RawArticle) :=
  match net keywords with
  | RequestException => Ok []
  | JsonNotObject => Raise AttributeError
  | JsonObject ArticlesAbsent => Ok []
  | JsonObject ArticlesNull => Raise TypeError
  | JsonObject (ArticlesList articles) => Ok articles
  end.

(** [analyze_sentiment]. *)
Definition analyze_sentiment (self : MarketSentimentAnalyzer) (text : string)
  : option (Z * float) :=
  match sentiment_pipeline self with
  | None => None
  | Some pipe =>
      if String.eqb text "" then None
      else
        match pipe (slice_to 512 text) with
        | ClassifierResult label score =>
            if String.eqb label "POSITIVE" then Some (1, score)
            else if String.eqb label "NEGATIVE" then Some (-1, score)
            else Some (0, half)
        | ClassifierRaises => Some (0, half)
        end
  end.

(** An element of [sentiments] (the ['timestamp'] entry, a wall-clock
    reading, is left out). *)
Record ClassifiedArticle : Type := {
  title : pyval;
  url : pyval;
  source : pyval;
  sentiment : Z;
  confidence : float
}.

(** [d.get(key, default)] on an article field. *)
Definition get_default (field : option pyval) (default : pyval) : pyval :=
  match field with
  | Some v => v
  | None => default
  end.

(** [article.get('source', {}).get('name', 'Unknown')]. *)
Definition source_name (a : RawArticle) : result pyval :=
  match raw_source a with
  | SourceMissing => Ok (PyStr "Unknown")
  | SourceNull => Raise AttributeError
  | SourceObj name => Ok (get_default name (PyStr "Unknown"))
  end.

(** The classification text [f"{title} {description}"]. *)
Definition article_text (a : RawArticle) : string :=
  format (get_default (raw_title a) (PyStr "")) ++ " "
  ++ format (get_default (raw_description a) (PyStr "")).

(** The body of the [try] in [process_articles] for one article: the record
    appended to [sentiments], if any. *)
Definition process_article (self : MarketSentimentAnalyzer) (a : RawArticle)
  : result (option ClassifiedArticle) :=
  let t := get_default (raw_title a) (PyStr "") in
  let u := get_default (raw_url a) (PyStr "") in
  src <- source_name a ;;
  match analyze_sentiment self (article_text a) with
  | Some (sentiment_value, conf) =>
      Ok (Some {| title := t; url := u; source := src;
                  sentiment := sentiment_value; confidence := conf |})
  | None => Ok None
  end.

(** [process_articles]: an exception in the body skips the article. *)
Fixpoint process_articles (self : MarketSentimentAnalyzer) (articles : list RawArticle)
  : list ClassifiedArticle :=
  match articles with
  | [] => []
  | a :: rest =>
      match process_article self a with
      | Ok (Some sentiment_data) => sentiment_data :: process_articles self rest
      | Ok None => process_articles self rest
      | Raise _ => process_articles self rest
      end
  end.

End Analyzer.

(* ================================================================== *)
(** ** Per-category statistics (categorize_and_analyze) *)
(* ================================================================== *)

Section Categories.
Context {R : Runtime}.

(** The value of [results[category]]. *)
Record CategoryStats : Type := {
  positive_count : Z;
  positive_pct : pynum float;
  negative_count : Z;
  negative_pct : pynum float;
  neutral_count : Z;
  neutral_pct : pynum float;
  total_mentions : Z;
  avg_confidence : pynum float;
  articles : list ClassifiedArticle
}.

(** [len(df[cond])]. *)
Definition count_where (cond : ClassifiedArticle -> bool) (df : list ClassifiedArticle) : Z :=
  Z.of_nat (List.length (filter cond df)).

(** [round((count / total * 100) if total > 0 else 0, 2)]. *)
Definition percentage (count total : Z) : result (pynum float) :=
  x <- (if 0 <? total
        then q <- py_truediv count total ;; Ok (PFloat (fmul q 100))
        else Ok (PInt 0)) ;;
  Ok (py_round x 2).

(** The record stored when [sentiments] is empty. *)
Definition empty_stats : CategoryStats :=
  {| positive_count := 0; positive_pct := PInt 0;
     negative_count := 0; negative_pct := PInt 0;
     neutral_count := 0; neutral_pct := PInt 0;
     total_mentions := 0; avg_confidence := PInt 0;
     articles := [] |}.

(** The [if sentiments: ... else: ...] block. *)
Definition category_stats (sentiments : list ClassifiedArticle) : result CategoryStats :=
  match sentiments with
  | [] => Ok empty_stats
  | _ :: _ =>
      let positive := count_where (fun r => sentiment r >? 0) sentiments in
      let negative := count_where (fun r => sentiment r <? 0) sentiments in
      let neutral := count_where (fun r => sentiment r =? 0) sentiments in
      let total := Z.of_nat (List.length sentiments) in
      ppct <- percentage positive total ;;
      npct <- percentage negative total ;;
      upct <- percentage neutral total ;;
      Ok {| positive_count := positive; positive_pct := ppct;
            negative_count := negative; negative_pct := npct;
            neutral_count := neutral; neutral_pct := upct;
            total_mentions := total;
            avg_confidence := PFloat (round_nd (mean (map confidence sentiments)) 3);
            articles := firstn 10 sentiments |}
  end.

(** The inner loop over the assets of one category. *)
Fixpoint fetch_category (net : NewsSource) (assets : list string) : result (list RawArticle) :=
  match assets with
  | [] => Ok []
  | asset :: rest =>
      fetched <- fetch_news net asset ;;
      more <- fetch_category net rest ;;
      Ok (fetched ++ more)%list
  end.

(** One iteration of the loop over categories. *)
Definition analyze_category (self : MarketSentimentAnalyzer) (net : NewsSource)
    (assets : list string) : result CategoryStats :=
  all_articles <- fetch_category net assets ;;
  unique <- unique_articles all_articles ;;
  category_stats (process_articles self unique).

Fixpoint categorize_loop (self : MarketSentimentAnalyzer) (net : NewsSource)
    (items : list (string * list string)) (results : dict string CategoryStats)
  : result (dict string CategoryStats) :=
  match items with
  | [] => Ok results
  | (category, assets) :: rest =>
      stats <- analyze_category self net assets ;;
      categorize_loop self net rest (dict_set String.eqb category stats results)
  end.

(** [categorize_and_analyze]. *)
Definition categorize_and_analyze (self : MarketSentimentAnalyzer) (net : NewsSource)
  : result (dict string CategoryStats) :=
  categorize_loop self net (asset_categories self) [].

End Categories.

(* ================================================================== *)
(** ** Asset attribution and ranking (identify_top_assets) *)
(* ================================================================== *)

Section Assets.
Context {R : Runtime}.

(** An entry of [asset_stats]. *)
Record AssetAcc : Type := {
  acc_mentions : Z;
  acc_positive : Z;
  acc_negative : Z;
  acc_sentiment_score : Z
}.

(** The default entry of the [defaultdict]. *)
Definition acc_zero : AssetAcc :=
  {| acc_mentions := 0; acc_positive := 0; acc_negative := 0; acc_sentiment_score := 0 |}.

(** [asset_stats[asset]] read through the default. *)
Definition acc_of (asset : string) (asset_stats : dict string AssetAcc) : AssetAcc :=
  match dict_get String.eqb asset asset_stats with
  | Some acc => acc
  | None => acc_zero
  end.

(** The body of [if asset.lower() in article['title'].lower():]. *)
Definition record_mention (asset : string) (s : Z) (asset_stats : dict string AssetAcc)
  : dict string AssetAcc :=
  let old := acc_of asset asset_stats in
  dict_set String.eqb asset
    {| acc_mentions := acc_mentions old + 1;
       acc_positive := if s >? 0 then acc_positive old + 1 else acc_positive old;
       acc_negative := if s >? 0 then acc_negative old
                       else if s <? 0 then acc_negative old + 1 else acc_negative old;
       acc_sentiment_score := acc_sentiment_score old + s |}
    asset_stats.

(** [asset.lower() in article['title'].lower()]; [.lower()] does not exist
    on [None]. *)
Definition mentions_asset (asset : string) (article : ClassifiedArticle) : result bool :=
  match title article with
  | PyNone => Raise AttributeError
  | PyStr t => Ok (contains (lower asset) (lower t))
  end.

(** [for asset in asset_list]. *)
Fixpoint scan_assets (article : ClassifiedArticle) (asset_list : list string)
    (asset_stats : dict string AssetAcc) : result (dict string AssetAcc) :=
  match asset_list with
  | [] => Ok asset_stats
  | asset :: rest =>
      hit <- mentions_asset asset article ;;
      scan_assets article rest
        (if hit then record_mention asset (sentiment article) asset_stats else asset_stats)
  end.

(** [for asset_list in self.asset_categories.values()]. *)
Fixpoint scan_lists (article : ClassifiedArticle) (lists : list (list string))
    (asset_stats : dict string AssetAcc) : result (dict string AssetAcc) :=
  match lists with
  | [] => Ok asset_stats
  | asset_list :: rest =>
      st <- scan_assets article asset_list asset_stats ;;
      scan_lists article rest st
  end.

(** [for article in data.get('articles', [])]. *)
Fixpoint scan_articles (self : MarketSentimentAnalyzer) (sample : list ClassifiedArticle)
    (asset_stats : dict string AssetAcc) : result (dict string AssetAcc) :=
  match sample with
  | [] => Ok asset_stats
  | article :: rest =>
      st <- scan_lists article (values (asset_categories self)) asset_stats ;;
      scan_articles self rest st
  end.

(** [for category, data in all_data.items()]. *)
Fixpoint collect_asset_stats (self : MarketSentimentAnalyzer)
    (all_data : dict string CategoryStats) (asset_stats : dict string AssetAcc)
  : result (dict string AssetAcc) :=
  match all_data with
  | [] => Ok asset_stats
  | (_, data) :: rest =>
      st <- scan_articles self (articles data) asset_stats ;;
      collect_asset_stats self rest st
  end.

(** An element of [assets_list]. *)
Record AssetStat : Type := {
  asset : string;
  mentions : Z;
  positive : Z;
  negative : Z;
  sentiment_avg : pynum float
}.

(** The list comprehension building [assets_list]. *)
Fixpoint assets_list_of (items : dict string AssetAcc) : result (list AssetStat) :=
  match items with
  | [] => Ok []
  | (name, stats) :: rest =>
      if acc_mentions stats >? 0 then
        avg <- (if acc_mentions stats >? 0
                then q <- py_truediv (acc_sentiment_score stats) (acc_mentions stats) ;;
                     Ok (PFloat (round_nd q 3))
                else Ok (PInt 0)) ;;
        more <- assets_list_of rest ;;
        Ok ({| asset := name; mentions := acc_mentions stats;
               positive := acc_positive stats; negative := acc_negative stats;
               sentiment_avg := avg |} :: more)
      else assets_list_of rest
  end.

(** [sorted(xs, key=key)] and [sorted(xs, key=key, reverse=True)]: a stable
    sort that only asks [<] of the keys. *)
Fixpoint insert_sorted {A : Type} (lt : A -> A -> bool) (x : A) (sorted : list A) : list A :=
  match sorted with
  | [] => [x]
  | y :: rest => if lt x y then x :: y :: rest else y :: insert_sorted lt x rest
  end.

Definition sorted_by {A : Type} (key : A -> pynum float) (reverse : bool) (xs : list A) : list A :=
  let lt := fun x y => if reverse then num_ltb (key y) (key x) else num_ltb (key x) (key y) in
  fold_left (fun acc x => insert_sorted lt x acc) xs [].

Record TopAssets : Type := {
  most_talked : list AssetStat;
  least_talked : list AssetStat;
  most_positive : list AssetStat;
  most_negative : list AssetStat
}.

(** [identify_top_assets]. *)
Definition identify_top_assets (self : MarketSentimentAnalyzer)
    (all_data : dict string CategoryStats) : result TopAssets :=
  asset_stats <- collect_asset_stats self all_data [] ;;
  assets_list <- assets_list_of asset_stats ;;
  Ok {| most_talked := firstn 10 (sorted_by (fun x => PInt (mentions x)) true assets_list);
        least_talked := firstn 10 (sorted_by (fun x => PInt (mentions x)) false assets_list);
        most_positive := firstn 10 (sorted_by sentiment_avg true assets_list);
        most_negative := firstn 10 (sorted_by sentiment_avg false assets_list) |}.

End Assets.

(* ================================================================== *)
(** ** Report assembly and persistence (generate_report, save_report) *)
(* ================================================================== *)

Section Reports.
Context {R : Runtime}.

(** The value of [report['market_sentiment'][category]]. *)
Record CategorySummary : Type := {
  summary_positive : pynum float;
  summary_negative : pynum float;
  summary_neutral : pynum float;
  summary_total_mentions : Z;
  summary_avg_confidence : pynum float;
  articles_count : Z
}.

Record Report : Type := {
  timestamp : string;
  market_sentiment : dict string CategorySummary;
  top_assets : TopAssets;
  detailed_category_data : dict string CategoryStats
}.

Definition summarize (data : CategoryStats) : CategorySummary :=
  {| summary_positive := positive_pct data;
     summary_negative := negative_pct data;
     summary_neutral := neutral_pct data;
     summary_total_mentions := total_mentions data;
     summary_avg_confidence := avg_confidence data;
     articles_count := positive_count data + negative_count data + neutral_count data |}.

(** [generate_report]; [now] is the reading of [datetime.now().isoformat()]. *)
Definition generate_report (self : MarketSentimentAnalyzer) (net : NewsSource) (now : string)
  : result Report :=
  category_results <- categorize_and_analyze self net ;;
  top <- identify_top_assets self category_results ;;
  Ok {| timestamp := now;
        market_sentiment := map (fun item => (fst item, summarize (snd item))) category_results;
        top_assets := top;
        detailed_category_data := category_results |}.

(** The pieces that [json.dump] hands to [f.write], in order. *)
Variable json_chunks : Report -> list string.

(** Where a save goes wrong, if it does: [open] raises, or the write
    numbered [n] (from 0) raises. *)
Inductive io_fault : Type :=
| NoFault
| OpenFails
| WriteFails (n : nat).

(** The writes of [json.dump] on an open file: the content afterwards, and
    whether every write went through. *)
Fixpoint write_chunks (chunks : list string) (fail_at : option nat) (content : string)
  : string * bool :=
  match chunks with
  | [] => (content, true)
  | c :: rest =>
      match fail_at with
      | Some O => (content, false)
      | Some (S n) => write_chunks rest (Some n) (content ++ c)
      | None => write_chunks rest None (content ++ c)
      end
  end.

(** [save_report] on a store holding [stored] (no file: [None]): the store
    afterwards and the value returned.  Opening with mode ['w'] empties the
    file; any exception is caught and [None] is returned. *)
Definition save_report (report : Report) (filename : string) (fault : io_fault)
    (stored : option string) : option string * option string :=
  match fault with
  | OpenFails => (stored, None)
  | _ =>
      let fail_at := match fault with WriteFails n => Some n | _ => None end in
      let (content, done) := write_chunks (json_chunks report) fail_at "" in
      (Some content, if done then Some filename else None)
  end.

End Reports.

(* ================================================================== *)
(** ** The two pipeline drivers of app.py and [analysis_lock] *)
(* ================================================================== *)

Module App.

(** What a driver does, as far as the lock and the pipeline are concerned. *)
Inductive instr : Type :=
| Acquire          (* entering [with analysis_lock:] *)
| Release          (* leaving it *)
| EnterPipeline    (* [analyzer.generate_report()] starts *)
| LeavePipeline.   (* [analyzer.save_report(...)] has returned *)

(** [scheduled_analysis]: the pipeline inside [with analysis_lock:]. *)
Definition scheduled_analysis : list instr :=
  [Acquire; EnterPipeline; LeavePipeline; Release].

(** [trigger_analysis]: the pipeline, called directly. *)
Definition trigger_analysis : list instr :=
  [EnterPipeline; LeavePipeline].

Record thread : Type := {
  code : list instr;
  in_pipeline : bool
}.

(** The scheduler thread, the request handler thread and the lock. *)
Record system : Type := {
  lock_held : bool;
  scheduler : thread;
  handler : thread
}.

Inductive tid : Type := Scheduler | Handler.

(** One instruction of a thread; [None] when it is blocked or finished. *)
Definition step_thread (lock : bool) (t : thread) : option (bool * thread) :=
  match code t with
  | [] => None
  | Acquire :: k =>
      if lock then None else Some (true, {| code := k; in_pipeline := in_pipeline t |})
  | Release :: k => Some (false, {| code := k; in_pipeline := in_pipeline t |})
  | EnterPipeline :: k => Some (lock, {| code := k; in_pipeline := true |})
  | LeavePipeline :: k => Some (lock, {| code := k; in_pipeline := false |})
  end.

Definition step (who : tid) (s : system) : option system :=
  match who with
  | Scheduler =>
      match step_thread (lock_held s) (scheduler s) with
      | Some (l, t) => Some {| lock_held := l; scheduler := t; handler := handler s |}
      | None => None
      end
  | Handler =>
      match step_thread (lock_held s) (handler s) with
      | Some (l, t) => Some {| lock_held := l; scheduler := scheduler s; handler := t |}
      | None => None
      end
  end.

(** An interleaving, given as the order in which the threads move. *)
Fixpoint run (order : list tid) (s : system) : option system :=
  match order with
  | [] => Some s
  | who :: rest =>
      match step who s with
      | Some s' => run rest s'
      | None => None
      end
  end.

(** A scheduled run and a manual trigger, both about to start. *)
Definition initial : system :=
  {| lock_held := false;
     scheduler := {| code := scheduled_analysis; in_pipeline := false |};
     handler := {| code := trigger_analysis; in_pipeline := false |} |}.

(** Two pipeline executions at once. *)
Definition overlapping (s : system) : bool :=
  in_pipeline (scheduler s) && in_pipeline (handler s).

End App.

(* ================================================================== *)
(** ** The configured analyzer and a runtime to compute with *)
(* ================================================================== *)

(** [self.asset_categories] as set by [__init__]. *)
Definition configured_categories : dict string (list string) :=
  [ ("techs",
     ["Apple"; "Microsoft"; "Google"; "Amazon"; "Tesla";
      "NVIDIA"; "Meta"; "Intel"; "AMD"; "Qualcomm";
      "AAPL"; "MSFT"; "GOOGL"; "AMZN"; "TSLA";
      "tech"; "technology"; "smartphone"; "cloud";
      "artificial intelligence"; "AI"; "machine learning"]);
    ("criptos",
     ["Bitcoin"; "Ethereum"; "BTC"; "ETH"; "Cardano"; "ADA";
      "Solana"; "SOL"; "Polkadot"; "DOT"; "Ripple"; "XRP";
      "Dogecoin"; "DOGE"; "cryptocurrency"; "crypto"; "blockchain";
      "DeFi"; "NFT"; "Web3"; "token"; "altcoin"; "Bitcoin Cash";
      "Litecoin"; "LTC"; "Monero"; "XMR"]);
    ("gold",
     ["ouro"; "gold"; "GLD"; "aurum"; "precious metals";
      "ouro spot"; "bullion"; "onça de ouro"; "troy ounce gold";
      "commodity oro"; "mercado de ouro"; "preço do ouro";
      "gold price"; "gold market"; "investimento ouro";
      "GOLDBEES"; "EFT ouro"]);
    ("silver",
     ["prata"; "silver"; "SLV"; "argentum"; "prata spot";
      "prata bullion"; "onça de prata"; "troy ounce silver";
      "commodity plata"; "mercado de prata"; "preço da prata";
      "silver price"; "silver market"; "investimento prata";
      "SILVERBEES"]);
    ("energias_renovaveis",
     ["NextEra"; "solar"; "eólica"; "renewable energy"]) ].

(** The object built by [MarketSentimentAnalyzer()], given what loading the
    model produced. *)
Definition init {R : Runtime} (loaded : option (string -> classifier_outcome))
  : MarketSentimentAnalyzer :=
  {| asset_categories := configured_categories; sentiment_pipeline := loaded |}.

(** An exact-arithmetic runtime: numbers are rationals in lowest terms,
    rounding is to the nearest multiple of [10^-n] with ties to even, and
    [lower] folds the ASCII letters. *)
Module ExactRuntime.

Definition lower_ascii (c : ascii) : ascii :=
  let n := nat_of_ascii c in
  if ((65 <=? n) && (n <=? 90))%nat then ascii_of_nat (n + 32) else c.

Fixpoint lower_string (s : string) : string :=
  match s with
  | EmptyString => EmptyString
  | String c s' => String (lower_ascii c) (lower_string s')
  end.

Definition round_half_even (x : Q) (ndigits : Z) : Q :=
  let scale := 10 ^ ndigits in
  let y := Qred (x * (scale # 1)) in
  let fl := Qfloor y in
  let frac := Qred (y - (fl # 1)) in
  let up :=
    match Qcompare frac (1 # 2) with
    | Lt => false
    | Gt => true
    | Eq => Z.odd fl
    end in
  Qred (((if up then fl + 1 else fl) # 1) / (scale # 1)).

Definition qsum (xs : list Q) : Q := fold_left Qplus xs (0 # 1).

Definition to_Q (x : pynum Q) : Q :=
  match x with
  | PInt z => z # 1
  | PFloat q => q
  end.

Definition qltb (x y : Q) : bool :=
  match Qcompare x y with
  | Lt => true
  | _ => false
  end.

#[export] Instance runtime : Runtime := {|
  float := Q;
  half := 1 # 2;
  fdiv := fun a b => Qred ((a # 1) / (b # 1));
  fmul := fun x k => Qred (x * (k # 1));
  round_nd := round_half_even;
  mean := fun xs => Qred (qsum xs / (Z.of_nat (List.length xs) # 1));
  num_ltb := fun x y => qltb (to_Q x) (to_Q y);
  lower := lower_string
|}.

(** A rational read as a float of this runtime. *)
Definition of_Q (q : Q) : @float runtime := q.

End ExactRuntime.

(* ================================================================== *)
(** ** The two drivers of app.py as store transformers *)
(* ================================================================== *)

Module Serving.
Section Drivers.
Context {R : Runtime}.

(** The pieces that [json.dump] writes for a report. *)
Variable json_chunks : Report -> list string.

(** [DATA_FILE], as it stands after its second assignment. *)
Definition DATA_FILE : string := "market_sentiment_data.json".

(** [trigger_analysis]: the status code of the response and the store
    afterwards.  The value of [save_report] is not looked at;
    [print_summary] only prints. *)
Definition trigger_analysis (self : MarketSentimentAnalyzer) (net : NewsSource)
    (now : string) (fault : io_fault) (stored : option string) : Z * option string :=
  match generate_report self net now with
  | Ok report => (200, fst (save_report json_chunks report DATA_FILE fault stored))
  | Raise _ => (500, stored)
  end.

(** [scheduled_analysis]: the store afterwards (the lock is modelled in
    [App]). *)
Definition scheduled_analysis (self : MarketSentimentAnalyzer) (net : NewsSource)
    (now : string) (fault : io_fault) (stored : option string) : option string :=
  match generate_report self net now with
  | Ok report => fst (save_report json_chunks report DATA_FILE fault stored)
  | Raise _ => stored
  end.

End Drivers.
End Serving.

(* ================================================================== *)
(** ** Vocabulary of the statements and the inputs of the examples *)
(* ================================================================== *)

(** The article has the url [u]. *)
Definition has_url (u : pyval) (a : RawArticle) : bool :=
  match raw_url a with
  | Some v => pyval_eqb v u
  | None => false
  end.

(** The last element of a list that satisfies [p]. *)
Fixpoint find_last {A : Type} (p : A -> bool) (l : list A) : option A :=
  match l with
  | [] => None
  | a :: rest =>
      match find_last p rest with
      | Some b => Some b
      | None => if p a then Some a else None
      end
  end.

(** What deduplication leaves for one url. *)
Definition survivors (u : pyval) (batch : list RawArticle) : list RawArticle :=
  match find_last (has_url u) batch with
  | Some a => [a]
  | None => []
  end.

(** A plain article: title, description and url present, no source. *)
Definition article (t d u : string) : RawArticle :=
  {| raw_title := Some (PyStr t); raw_description := Some (PyStr d);
     raw_url := Some (PyStr u); raw_source := SourceMissing |}.

(** The invariant of the url dictionary: distinct keys, each article filed
    under its own url. *)
Definition keyed_by_url (d : dict pyval RawArticle) : Prop :=
  NoDup (keys d) /\ Forall (fun kv => raw_url (snd kv) = Some (fst kv)) d.

(** Two articles without a url text and two that share one. *)
Definition no_url_first : RawArticle := article "Fed holds rates" "first" "".
Definition no_url_second : RawArticle := article "Oil slips" "second" "".
Definition same_url_first : RawArticle := article "Gold up" "early copy" "https://n.example/gold".
Definition same_url_second : RawArticle := article "Gold up 2%" "late copy" "https://n.example/gold".

(** An article object with no ['url'] key at all. *)
Definition keyless : RawArticle :=
  {| raw_title := Some (PyStr "Wire item"); raw_description := None;
     raw_url := None; raw_source := SourceMissing |}.

(** An analyzer whose model is loaded and raises on every call, and one
    whose model failed to load. *)
Definition raising_analyzer : MarketSentimentAnalyzer (R := ExactRuntime.runtime) :=
  init (Some (fun _ => ClassifierRaises)).
Definition modelless_analyzer : MarketSentimentAnalyzer (R := ExactRuntime.runtime) :=
  init None.

(** The record [process_articles] appends for [a] when the classifier
    gave [(s, c)]. *)
Definition classified {R : Runtime} (a : RawArticle) (src : pyval) (s : Z) (c : float)
  : ClassifiedArticle :=
  {| title := get_default (raw_title a) (PyStr "");
     url := get_default (raw_url a) (PyStr "");
     source := src; sentiment := s; confidence := c |}.

(** A one-category desk: keywords "gold" and "GLD"; three articles come
    back for "gold", two of them under one url, and two for "GLD"; the
    classifier answers by title. *)
Definition desk_pipeline (text : string) : classifier_outcome (R := ExactRuntime.runtime) :=
  let answer := ClassifierResult (R := ExactRuntime.runtime) in
  if contains "rally" text then answer "POSITIVE" (9 # 10)
  else if contains "inflows" text then answer "POSITIVE" (8 # 10)
  else if contains "slump" text then answer "NEGATIVE" (7 # 10)
  else answer "MIXED" (99 # 100).

Definition desk_analyzer : MarketSentimentAnalyzer (R := ExactRuntime.runtime) :=
  {| asset_categories := [("gold", ["gold"; "GLD"])];
     sentiment_pipeline := Some desk_pipeline |}.

Definition desk_net (keywords : string) : http_outcome :=
  if String.eqb keywords "gold" then
    JsonObject (ArticlesList
      [article "Gold rally (draft)" "" "https://n.example/1";
       article "Gold ETF inflows" "" "https://n.example/2";
       article "Gold rally" "" "https://n.example/1"])
  else if String.eqb keywords "GLD" then
    JsonObject (ArticlesList
      [article "GLD slump" "" "https://n.example/3";
       article "GLD flat" "" "https://n.example/4"])
  else RequestException.

(** Every keyword of every category, in configuration order. *)
Definition all_keywords {R : Runtime} (self : MarketSentimentAnalyzer) : list string :=
  List.concat (values (asset_categories self)).

(** The articles that [identify_top_assets] walks through: the ['articles']
    sample of every category, in order. *)
Definition sampled {R : Runtime} (all_data : dict string CategoryStats)
  : list ClassifiedArticle :=
  List.concat (map (fun item => articles (snd item)) all_data).

(** The keyword occurs in the title, ignoring case. *)
Definition title_matches {R : Runtime} (kw : string) (a : ClassifiedArticle) : bool :=
  match title a with
  | PyStr t => contains (lower kw) (lower t)
  | PyNone => false
  end.

(** The sum of the sentiments of a list of articles. *)
Definition sentiment_total {R : Runtime} (hits : list ClassifiedArticle) : Z :=
  fold_right (fun r acc => sentiment r + acc) 0 hits.

(** An accumulator after the articles [hits] have been attributed to it. *)
Definition tally {R : Runtime} (acc : AssetAcc) (hits : list ClassifiedArticle) : AssetAcc :=
  {| acc_mentions := acc_mentions acc + Z.of_nat (List.length hits);
     acc_positive := acc_positive acc + count_where (fun r => sentiment r >? 0) hits;
     acc_negative := acc_negative acc + count_where (fun r => sentiment r <? 0) hits;
     acc_sentiment_score := acc_sentiment_score acc + sentiment_total hits |}.

(** One sampled article naming two tracked assets. *)
Definition surge : ClassifiedArticle (R := ExactRuntime.runtime) :=
  {| title := PyStr "Bitcoin and Ethereum surge"; url := PyStr "https://n.example/5";
     source := PyStr "Unknown"; sentiment := 1;
     confidence := ExactRuntime.of_Q (9 # 10) |}.

Definition surge_data : dict string (CategoryStats (R := ExactRuntime.runtime)) :=
  [("criptos",
    {| positive_count := 1; positive_pct := PFloat (ExactRuntime.of_Q (100 # 1));
       negative_count := 0; negative_pct := PFloat (ExactRuntime.of_Q (0 # 1));
       neutral_count := 0; neutral_pct := PFloat (ExactRuntime.of_Q (0 # 1));
       total_mentions := 1; avg_confidence := PFloat (ExactRuntime.of_Q (9 # 10));
       articles := [surge] |})].

(** A news API that answers one query with a body whose ['articles'] is
    [null] and fails every other request. *)
Definition null_for_bitcoin (keywords : string) : http_outcome :=
  if String.eqb keywords "Bitcoin" then JsonObject ArticlesNull else RequestException.

(** A news API that cannot be reached. *)
Definition unreachable (keywords : string) : http_outcome := RequestException.

(** A report as small as a report gets, the three pieces its serializer
    writes, and the document stored before the save. *)
Definition blank_report : Report (R := ExactRuntime.runtime) :=
  {| timestamp := "2024-05-01T09:00:00";
     market_sentiment := [];
     top_assets := {| most_talked := []; least_talked := [];
                      most_positive := []; most_negative := [] |};
     detailed_category_data := [] |}.

Definition three_pieces (report : Report (R := ExactRuntime.runtime)) : list string :=
  ["{"; "timestamp: " ++ timestamp report; "}"].

Definition previous_document : string := "{timestamp: 2024-04-30T09:00:00}".

(** The text that a sequence of writes leaves in an emptied file. *)
Definition written (chunks : list string) : string :=
  fold_right String.append "" chunks.

(** Where a driver that takes the lock can be: its remaining code,
    whether it is inside the pipeline, whether it holds the lock. *)
Inductive locked_driver : App.thread -> bool -> Prop :=
| driver_waiting :
    locked_driver {| App.code := App.scheduled_analysis; App.in_pipeline := false |} false
| driver_entered :
    locked_driver {| App.code := [App.EnterPipeline; App.LeavePipeline; App.Release];
                     App.in_pipeline := false |} true
| driver_running :
    locked_driver {| App.code := [App.LeavePipeline; App.Release];
                     App.in_pipeline := true |} true
| driver_leaving :
    locked_driver {| App.code := [App.Release]; App.in_pipeline := false |} true
| driver_done :
    locked_driver {| App.code := []; App.in_pipeline := false |} false.

(** Two drivers that both take the lock: at most one holds it. *)
Definition serialized (s : App.system) : Prop :=
  exists h1 h2,
    locked_driver (App.scheduler s) h1 /\ locked_driver (App.handler s) h2 /\
    App.lock_held s = (h1 || h2)%bool /\ (h1 && h2)%bool = false.

(** The system in which the manual trigger would run [scheduled_analysis]'s
    code, that is, would take the lock as well. *)
Definition both_locked : App.system :=
  {| App.lock_held := false;
     App.scheduler := {| App.code := App.scheduled_analysis; App.in_pipeline := false |};
     App.handler := {| App.code := App.scheduled_analysis; App.in_pipeline := false |} |}.

(** The ['source'] of the article is not [null]. *)
Definition source_present (a : RawArticle) : bool :=
  match raw_source a with
  | SourceNull => false
  | _ => true
  end.

(** The desk analyzer with a model that also raises on every text longer
    than 512 characters. *)
Definition desk_analyzer_short : MarketSentimentAnalyzer (R := ExactRuntime.runtime) :=
  {| asset_categories := [("gold", ["gold"; "GLD"])];
     sentiment_pipeline :=
       Some (fun text => if (py_len text <=? 512)%nat
                         then desk_pipeline text else ClassifierRaises) |}.

(** An article whose ['source'] is [null]. *)
Definition sourceless : RawArticle :=
  {| raw_title := Some (PyStr "Gold rally"); raw_description := Some (PyStr "");
     raw_url := Some (PyStr "https://n.example/7"); raw_source := SourceNull |}.

(** The report of the desk. *)
Definition desk_report : Report (R := ExactRuntime.runtime) :=
  Eval vm_compute in
    match generate_report desk_analyzer desk_net "2024-05-01T09:00:00" with
    | Ok report => report
    | Raise _ => blank_report
    end.

(** An accumulator after one more article of sentiment [s] has been
    attributed to it. *)
Definition bump (old : AssetAcc) (s : Z) : AssetAcc :=
  {| acc_mentions := acc_mentions old + 1;
     acc_positive := if s >? 0 then acc_positive old + 1 else acc_positive old;
     acc_negative := if s >? 0 then acc_negative old
                     else if s <? 0 then acc_negative old + 1 else acc_negative old;
     acc_sentiment_score := acc_sentiment_score old + s |}.

(** The element of [assets_list] made from one item of [asset_stats]. *)
Definition to_stat {R : Runtime} (item : string * AssetAcc) : AssetStat :=
  {| asset := fst item;
     mentions := acc_mentions (snd item);
     positive := acc_positive (snd item);
     negative := acc_negative (snd item);
     sentiment_avg :=
       PFloat (round_nd (fdiv (acc_sentiment_score (snd item)) (acc_mentions (snd item))) 3) |}.

(** Every entry of the four ranking lists. *)
Definition ranked {R : Runtime} (top : TopAssets) : list AssetStat :=
  (most_talked top ++ least_talked top ++ most_positive top ++ most_negative top)%list.

(** An article object with a url key and a title that is not [null]. *)
Definition well_formed (a : RawArticle) : Prop :=
  raw_url a <> None /\ raw_title a <> Some PyNone.

(** The ranking computed from the one sampled article [surge]. *)
Definition surge_top : TopAssets (R := ExactRuntime.runtime) :=
  Eval vm_compute in
    match identify_top_assets modelless_analyzer surge_data with
    | Ok top => top
    | Raise _ => top_assets blank_report
    end.

(** The desk analyzer with a model that raises on every text mentioning
    a wobble. *)
Definition moody_pipeline (text : string) : classifier_outcome (R := ExactRuntime.runtime) :=
  if contains "wobble" text then ClassifierRaises else desk_pipeline text.

Definition moody_analyzer : MarketSentimentAnalyzer (R := ExactRuntime.runtime) :=
  {| asset_categories := [("gold", ["gold"; "GLD"])];
     sentiment_pipeline := Some moody_pipeline |}.

(** A desk with two categories, of which only "gold" gets articles from
    [desk_net], and its report. *)
Definition two_desk_analyzer : MarketSentimentAnalyzer (R := ExactRuntime.runtime) :=
  {| asset_categories := [("gold", ["gold"; "GLD"]); ("silver", ["silver"; "SLV"])];
     sentiment_pipeline := Some desk_pipeline |}.

Definition two_desk_report : Report (R := ExactRuntime.runtime) :=
  Eval vm_compute in
    match generate_report two_desk_analyzer desk_net "2024-05-01T09:00:00" with
    | Ok report => report
    | Raise _ => blank_report
    end.

(** The report of the configured five categories on [desk_net], with the
    model that raises. *)
Definition configured_report : Report (R := ExactRuntime.runtime) :=
  Eval vm_compute in
    match generate_report raising_analyzer desk_net "2024-05-01T09:00:00" with
    | Ok report => report
    | Raise _ => blank_report
    end.

(** A sample of three articles in which "Bitcoin" is named twice, "gold"
    and "Tesla" once each, and the ranking computed from it. *)
Definition headline (t : string) (s : Z) : ClassifiedArticle (R := ExactRuntime.runtime) :=
  {| title := PyStr t; url := PyStr ""; source := PyStr "Unknown"; sentiment := s;
     confidence := ExactRuntime.of_Q (9 # 10) |}.

Definition mixed_data : dict string (CategoryStats (R := ExactRuntime.runtime)) :=
  [("criptos",
    {| positive_count := 2; positive_pct := PFloat (ExactRuntime.of_Q (200 # 3));
       negative_count := 1; negative_pct := PFloat (ExactRuntime.of_Q (100 # 3));
       neutral_count := 0; neutral_pct := PFloat (ExactRuntime.of_Q (0 # 1));
       total_mentions := 3; avg_confidence := PFloat (ExactRuntime.of_Q (9 # 10));
       articles := [headline "Tesla dips" (-1); headline "Bitcoin jumps" 1;
                    headline "Bitcoin and gold rise" 1] |})].

Definition mixed_top : TopAssets (R := ExactRuntime.runtime) :=
  Eval vm_compute in
    match identify_top_assets modelless_analyzer mixed_data with
    | Ok top => top
    | Raise _ => top_assets blank_report
    end.

(* ================================================================== *)
(** ** Facts about dictionaries *)
(* ================================================================== *)

Section DictFacts.
Variables (K V : Type) (eqb : K -> K -> bool).
Hypothesis eqb_eq : forall a b, eqb a b = true <-> a = b.

Lemma eqb_refl_true (k : K) : eqb k k = true.
Proof. now apply eqb_eq. Qed.

Lemma eqb_neq_false (a b : K) : a <> b -> eqb a b = false.
Proof.
  intros Hne. destruct (eqb a b) eqn:E; [|reflexivity].
  apply eqb_eq in E. contradiction.
Qed.

Lemma dict_get_set_same (k : K) (v : V) (d : dict K V) :
  dict_get eqb k (dict_set eqb k v d) = Some v.
Proof.
  induction d as [|[k' v'] d IH]; simpl.
  - now rewrite eqb_refl_true.
  - destruct (eqb k k') eqn:E; simpl; rewrite E; [reflexivity | exact IH].
Qed.

Lemma dict_get_set_other (k k' : K) (v : V) (d : dict K V) :
  k' <> k -> dict_get eqb k' (dict_set eqb k v d) = dict_get eqb k' d.
Proof.
  intros Hne. induction d as [|[k0 v0] d IH]; simpl.
  - now rewrite (eqb_neq_false _ _ Hne).
  - destruct (eqb k k0) eqn:E; simpl.
    + apply eqb_eq in E. subst k0. now rewrite (eqb_neq_false _ _ Hne).
    + now rewrite IH.
Qed.

Lemma dict_get_none_keys (k : K) (d : dict K V) :
  dict_get eqb k d = None <-> ~ In k (keys d).
Proof.
  induction d as [|[k' v'] d IH]; simpl.
  - tauto.
  - destruct (eqb k k') eqn:E.
    + apply eqb_eq in E. subst. split; [discriminate|]. intros H. exfalso. apply H. now left.
    + rewrite IH. split.
      * intros Hn [Heq|Hin]; [|tauto]. subst. rewrite eqb_refl_true in E. discriminate.
      * tauto.
Qed.

Lemma dict_get_some_keys (k : K) (d : dict K V) :
  In k (keys d) <-> exists v, dict_get eqb k d = Some v.
Proof.
  induction d as [|[k' v'] d IH]; simpl.
  - split; [tauto | intros [v Hv]; discriminate].
  - destruct (eqb k k') eqn:E.
    + apply eqb_eq in E. subst. split; [intros _; now exists v' | now left].
    + rewrite <- IH. split; [|tauto].
      intros [Heq|Hin]; [|exact Hin]. subst. rewrite eqb_refl_true in E. discriminate.
Qed.

Lemma keys_dict_set (k : K) (v : V) (d : dict K V) :
  keys (dict_set eqb k v d) =
  match dict_get eqb k d with
  | Some _ => keys d
  | None => (keys d ++ [k])%list
  end.
Proof.
  unfold keys. induction d as [|[k' v'] d IH]; simpl; [reflexivity|].
  destruct (eqb k k') eqn:E; simpl; [reflexivity|].
  rewrite IH. now destruct (dict_get eqb k d).
Qed.

Lemma NoDup_keys_dict_set (k : K) (v : V) (d : dict K V) :
  NoDup (keys d) -> NoDup (keys (dict_set eqb k v d)).
Proof.
  intros Hnd. rewrite keys_dict_set.
  destruct (dict_get eqb k d) eqn:E; [exact Hnd|].
  apply dict_get_none_keys in E.
  apply NoDup_app; [exact Hnd | repeat constructor; simpl; tauto |].
  intros x Hx [Hk|[]]. subst. contradiction.
Qed.

End DictFacts.

(* ================================================================== *)
(** ** Deduplication *)
(* ================================================================== *)

Lemma pyval_eqb_eq (a b : pyval) : pyval_eqb a b = true <-> a = b.
Proof.
  destruct a as [|s], b as [|t]; simpl; split; try congruence; try reflexivity.
  - intros H. apply String.eqb_eq in H. now subst.
  - intros H. injection H as ->. apply String.eqb_refl.
Qed.

Lemma has_url_true (u : pyval) (a : RawArticle) :
  has_url u a = true <-> raw_url a = Some u.
Proof.
  unfold has_url. destruct (raw_url a) as [v|].
  - rewrite pyval_eqb_eq. split; congruence.
  - split; discriminate.
Qed.

Lemma has_url_false (u : pyval) (a : RawArticle) :
  has_url u a = false <-> raw_url a <> Some u.
Proof.
  rewrite <- has_url_true. destruct (has_url u a); split; congruence.
Qed.

Lemma find_last_none {A : Type} (p : A -> bool) (l : list A) :
  find_last p l = None <-> Forall (fun x => p x = false) l.
Proof.
  induction l as [|a l IH]; simpl.
  - split; [constructor | reflexivity].
  - destruct (find_last p l) as [b|].
    + split; [discriminate|]. intros H. inversion H; subst.
      destruct IH as [_ IH]. specialize (IH H3). discriminate.
    + destruct (p a) eqn:E.
      * split; [discriminate|]. intros H. inversion H; subst. congruence.
      * split; [|reflexivity]. intros _. constructor; [exact E | now apply IH].
Qed.

Lemma find_last_split {A : Type} (p : A -> bool) (l : list A) (k : A) :
  find_last p l = Some k ->
  exists before after,
    l = (before ++ k :: after)%list /\ p k = true /\ Forall (fun x => p x = false) after.
Proof.
  induction l as [|a l IH]; simpl; [discriminate|].
  destruct (find_last p l) as [b|] eqn:E.
  - intros H. injection H as ->.
    destruct (IH eq_refl) as (before & after & -> & Hk & Hafter).
    now exists (a :: before), after.
  - destruct (p a) eqn:Ea; [|discriminate].
    intros H. injection H as ->.
    exists [], l. repeat split; [exact Ea | now apply find_last_none].
Qed.

Lemma keyed_by_url_set (u : pyval) (a : RawArticle) (d : dict pyval RawArticle) :
  raw_url a = Some u -> keyed_by_url d -> keyed_by_url (dict_set pyval_eqb u a d).
Proof.
  intros Hu [Hnd Hall]. split.
  - now apply NoDup_keys_dict_set; [apply pyval_eqb_eq|].
  - clear Hnd. induction d as [|[k v] d IH]; simpl.
    + repeat constructor. exact Hu.
    + inversion Hall; subst. destruct (pyval_eqb u k) eqn:E.
      * apply pyval_eqb_eq in E. subst. constructor; [exact Hu | assumption].
      * constructor; [assumption | now apply IH].
Qed.

Lemma filter_values_keyed (u : pyval) (d : dict pyval RawArticle) :
  keyed_by_url d ->
  filter (has_url u) (values d) =
  match dict_get pyval_eqb u d with
  | Some a => [a]
  | None => []
  end.
Proof.
  intros [Hnd Hall]. unfold values, keys in *.
  induction d as [|[k v] d IH]; simpl; [reflexivity|].
  inversion Hall as [|? ? Hkv Hall']; subst. simpl in Hkv.
  inversion Hnd as [|? ? Hnotin Hnd']; subst.
  specialize (IH Hnd' Hall').
  unfold has_url at 1. rewrite Hkv.
  destruct (pyval_eqb k u) eqn:E.
  - apply pyval_eqb_eq in E. subst k.
    rewrite (proj2 (pyval_eqb_eq u u) eq_refl).
    f_equal. rewrite IH.
    apply (dict_get_none_keys _ _ pyval_eqb pyval_eqb_eq) in Hnotin. now rewrite Hnotin.
  - assert (pyval_eqb u k = false) as ->.
    { destruct (pyval_eqb u k) eqn:E'; [|reflexivity].
      apply pyval_eqb_eq in E'. subst. rewrite (proj2 (pyval_eqb_eq k k) eq_refl) in E.
      discriminate. }
    exact IH.
Qed.

Lemma url_dict_spec (batch : list RawArticle) :
  forall d d', keyed_by_url d -> url_dict batch d = Ok d' ->
    keyed_by_url d' /\
    forall u, dict_get pyval_eqb u d' =
              match find_last (has_url u) batch with
              | Some a => Some a
              | None => dict_get pyval_eqb u d
              end.
Proof.
  induction batch as [|a rest IH]; simpl; intros d d' Hd Hrun.
  - injection Hrun as <-. now split.
  - destruct (raw_url a) as [v|] eqn:Hv; [|discriminate].
    destruct (IH _ _ (keyed_by_url_set _ _ _ Hv Hd) Hrun) as [Hd' Hget].
    split; [exact Hd'|]. intros u. rewrite Hget.
    destruct (find_last (has_url u) rest); [reflexivity|].
    unfold has_url. rewrite Hv.
    destruct (pyval_eqb v u) eqn:E.
    + apply pyval_eqb_eq in E. subst. apply (dict_get_set_same _ _ pyval_eqb pyval_eqb_eq).
    + apply (dict_get_set_other _ _ pyval_eqb pyval_eqb_eq). intros ->.
      rewrite (proj2 (pyval_eqb_eq v v) eq_refl) in E. discriminate.
Qed.

Lemma url_dict_total (batch : list RawArticle) :
  Forall (fun a => raw_url a <> None) batch ->
  forall d, exists d', url_dict batch d = Ok d'.
Proof.
  induction 1 as [|a rest Ha _ IH]; simpl; intros d.
  - now exists d.
  - destruct (raw_url a); [apply IH | contradiction].
Qed.

(** Deduplication keeps, for every url value, the last article filed
    under it and nothing else. *)
Lemma unique_articles_survivors (batch : list RawArticle) :
  Forall (fun a => raw_url a <> None) batch ->
  exists out, unique_articles batch = Ok out /\
              forall u, filter (has_url u) out = survivors u batch.
Proof.
  intros Hkeys. destruct (url_dict_total _ Hkeys []) as [d Hd].
  exists (values d). unfold unique_articles. rewrite Hd. simpl. split; [reflexivity|].
  assert (keyed_by_url []) as H0 by (split; constructor).
  destruct (url_dict_spec batch _ _ H0 Hd) as [Hk Hget].
  intros u. rewrite (filter_values_keyed u _ Hk), Hget. unfold survivors.
  now destruct (find_last (has_url u) batch).
Qed.

Lemma survivors_present (u : pyval) (batch : list RawArticle) (a : RawArticle) :
  In a batch -> raw_url a = Some u ->
  exists kept before after,
    batch = (before ++ kept :: after)%list /\ raw_url kept = Some u /\
    Forall (fun x => raw_url x <> Some u) after /\ survivors u batch = [kept].
Proof.
  intros Hin Hu. unfold survivors.
  destruct (find_last (has_url u) batch) as [k|] eqn:E.
  - destruct (find_last_split _ _ _ E) as (before & after & Hb & Hk & Hafter).
    exists k, before, after. repeat split; try assumption.
    + now apply has_url_true.
    + eapply Forall_impl; [|exact Hafter]. intros x. apply has_url_false.
  - apply find_last_none in E. rewrite Forall_forall in E.
    specialize (E a Hin). apply has_url_false in E. contradiction.
Qed.

Lemma survivors_absent (u : pyval) (batch : list RawArticle) :
  (forall a, In a batch -> raw_url a <> Some u) -> survivors u batch = [].
Proof.
  intros H. unfold survivors.
  assert (find_last (has_url u) batch = None) as ->; [|reflexivity].
  apply find_last_none. apply Forall_forall. intros x Hx. apply has_url_false. auto.
Qed.

(** C1, as stated, fails: of two articles whose url is the empty string
    only the second reaches classification, and an article without the
    key stops the deduplication with [KeyError]. *)
Lemma empty_url_articles_collapse :
  raw_url no_url_first = Some (PyStr "") /\
  raw_url no_url_second = Some (PyStr "") /\
  unique_articles [no_url_first; no_url_second] = Ok [no_url_second] /\
  ~ In no_url_first [no_url_second] /\
  unique_articles [no_url_first; keyless] = Raise KeyError.
Proof.
  repeat split. intros [H|[]]. discriminate.
Qed.

(** C1, amended: the empty url is a key like any other.  In a batch whose
    articles all carry a url, the articles with the empty string as url
    leave exactly one survivor, the last of them in batch order. *)
Theorem empty_url_last_survives (batch : list RawArticle) :
  Forall (fun a => raw_url a <> None) batch ->
  exists out, unique_articles batch = Ok out /\
    forall a, In a batch -> raw_url a = Some (PyStr "") ->
      exists kept before after,
        batch = (before ++ kept :: after)%list /\
        raw_url kept = Some (PyStr "") /\
        Forall (fun x => raw_url x <> Some (PyStr "")) after /\
        filter (has_url (PyStr "")) out = [kept].
Proof.
  intros Hkeys. destruct (unique_articles_survivors _ Hkeys) as (out & Hout & Hfilter).
  exists out. split; [exact Hout|]. intros a Hin Hu.
  destruct (survivors_present _ batch _ Hin Hu) as (kept & before & after & Hb & Hk & Ha & Hs).
  exists kept, before, after. rewrite Hfilter. auto.
Qed.

Lemma empty_url_last_survives_witness :
  exists out, unique_articles [no_url_first; same_url_first; no_url_second] = Ok out /\
    forall a, In a [no_url_first; same_url_first; no_url_second] ->
      raw_url a = Some (PyStr "") ->
      exists kept before after,
        [no_url_first; same_url_first; no_url_second] = (before ++ kept :: after)%list /\
        raw_url kept = Some (PyStr "") /\
        Forall (fun x => raw_url x <> Some (PyStr "")) after /\
        filter (has_url (PyStr "")) out = [kept].
Proof.
  apply (empty_url_last_survives [no_url_first; same_url_first; no_url_second]).
  repeat constructor; discriminate.
Defined.

(** C5: in a batch whose articles all carry a url, every non-empty url that
    occurs leaves exactly one entry in the output, the last article of
    the batch with that url; a non-empty url that does not occur leaves
    none. *)
Theorem dedup_last_wins (batch : list RawArticle) :
  Forall (fun a => raw_url a <> None) batch ->
  exists out, unique_articles batch = Ok out /\
    forall u, u <> "" ->
      (forall a, In a batch -> raw_url a = Some (PyStr u) ->
         exists kept before after,
           batch = (before ++ kept :: after)%list /\
           raw_url kept = Some (PyStr u) /\
           Forall (fun x => raw_url x <> Some (PyStr u)) after /\
           filter (has_url (PyStr u)) out = [kept]) /\
      ((forall a, In a batch -> raw_url a <> Some (PyStr u)) ->
         filter (has_url (PyStr u)) out = []).
Proof.
  intros Hkeys. destruct (unique_articles_survivors _ Hkeys) as (out & Hout & Hfilter).
  exists out. split; [exact Hout|]. intros u _. split.
  - intros a Hin Hu.
    destruct (survivors_present _ batch _ Hin Hu) as (kept & before & after & Hb & Hk & Ha & Hs).
    exists kept, before, after. rewrite Hfilter. auto.
  - intros Habs. rewrite Hfilter. now apply survivors_absent.
Qed.

Lemma dedup_last_wins_witness :
  unique_articles [same_url_first; same_url_second] = Ok [same_url_second] /\
  exists out, unique_articles [same_url_first; same_url_second] = Ok out /\
    forall u, u <> "" ->
      (forall a, In a [same_url_first; same_url_second] -> raw_url a = Some (PyStr u) ->
         exists kept before after,
           [same_url_first; same_url_second] = (before ++ kept :: after)%list /\
           raw_url kept = Some (PyStr u) /\
           Forall (fun x => raw_url x <> Some (PyStr u)) after /\
           filter (has_url (PyStr u)) out = [kept]) /\
      ((forall a, In a [same_url_first; same_url_second] -> raw_url a <> Some (PyStr u)) ->
         filter (has_url (PyStr u)) out = []).
Proof.
  split; [reflexivity|].
  apply (dedup_last_wins [same_url_first; same_url_second]).
  repeat constructor; discriminate.
Defined.

(* ================================================================== *)
(** ** Classification and per-category statistics *)
(* ================================================================== *)

Section StatsFacts.
Context {R : Runtime}.

Lemma article_text_nonempty (a : RawArticle) : String.eqb (article_text a) "" = false.
Proof.
  unfold article_text.
  destruct (format (get_default (raw_title a) (PyStr ""))); reflexivity.
Qed.

Lemma count_where_cons (cond : ClassifiedArticle -> bool) (r : ClassifiedArticle)
    (rest : list ClassifiedArticle) :
  count_where cond (r :: rest) = (if cond r then 1 else 0) + count_where cond rest.
Proof.
  unfold count_where. simpl. destruct (cond r); simpl List.length; lia.
Qed.

Lemma count_where_app (cond : ClassifiedArticle -> bool) (h1 h2 : list ClassifiedArticle) :
  count_where cond (h1 ++ h2) = count_where cond h1 + count_where cond h2.
Proof.
  unfold count_where. rewrite filter_app, length_app. lia.
Qed.

Lemma counts_partition (l : list ClassifiedArticle) :
  count_where (fun r => sentiment r >? 0) l
  + count_where (fun r => sentiment r <? 0) l
  + count_where (fun r => sentiment r =? 0) l
  = Z.of_nat (List.length l).
Proof.
  induction l as [|r l IH]; [reflexivity|].
  rewrite !count_where_cons. simpl List.length. rewrite Nat2Z.inj_succ, <- IH.
  destruct (Z.gtb_spec (sentiment r) 0), (Z.ltb_spec (sentiment r) 0),
    (Z.eqb_spec (sentiment r) 0); lia.
Qed.

Lemma percentage_positive_total (count total : Z) :
  0 < total ->
  percentage count total = Ok (PFloat (round_nd (fmul (fdiv count total) 100) 2)).
Proof.
  intros Hpos. unfold percentage, py_truediv.
  destruct (Z.ltb_spec 0 total); [|lia].
  destruct (Z.eqb_spec total 0); [lia|]. reflexivity.
Qed.

(** The statistics of a non-empty list of classified articles. *)
Lemma category_stats_nonempty (l : list ClassifiedArticle) :
  l <> [] ->
  let total := Z.of_nat (List.length l) in
  let pct := fun count => PFloat (round_nd (fmul (fdiv count total) 100) 2) in
  category_stats l =
  Ok {| positive_count := count_where (fun r => sentiment r >? 0) l;
        positive_pct := pct (count_where (fun r => sentiment r >? 0) l);
        negative_count := count_where (fun r => sentiment r <? 0) l;
        negative_pct := pct (count_where (fun r => sentiment r <? 0) l);
        neutral_count := count_where (fun r => sentiment r =? 0) l;
        neutral_pct := pct (count_where (fun r => sentiment r =? 0) l);
        total_mentions := total;
        avg_confidence := PFloat (round_nd (mean (map confidence l)) 3);
        articles := firstn 10 l |}.
Proof.
  intros Hne total pct. destruct l as [|r l]; [contradiction|].
  assert (0 < total) as Hpos by (subst total; simpl List.length; lia).
  unfold category_stats. fold total.
  rewrite !(percentage_positive_total _ total Hpos). reflexivity.
Qed.

Lemma category_stats_partition (l : list ClassifiedArticle) (data : CategoryStats) :
  category_stats l = Ok data ->
  positive_count data + negative_count data + neutral_count data = total_mentions data.
Proof.
  destruct l as [|r l].
  - intros H. injection H as <-. reflexivity.
  - rewrite category_stats_nonempty by discriminate.
    intros H. injection H as <-. simpl. apply counts_partition.
Qed.

Lemma analyze_category_stats (self : MarketSentimentAnalyzer) (net : NewsSource)
    (assets : list string) (data : CategoryStats) :
  analyze_category self net assets = Ok data ->
  exists l, category_stats l = Ok data.
Proof.
  unfold analyze_category.
  destruct (fetch_category net assets) as [all|]; simpl; [|discriminate].
  destruct (unique_articles all) as [unique|]; simpl; [|discriminate].
  intros H. now exists (process_articles self unique).
Qed.

Lemma Forall_values_dict_set (P : CategoryStats -> Prop) (k : string) (v : CategoryStats)
    (d : dict string CategoryStats) :
  P v -> Forall (fun kv => P (snd kv)) d ->
  Forall (fun kv => P (snd kv)) (dict_set String.eqb k v d).
Proof.
  intros Hv. induction 1 as [|[k' v'] d Hkv Hd IH]; simpl.
  - repeat constructor. exact Hv.
  - destruct (String.eqb k k'); constructor; assumption.
Qed.

(** Whatever holds of every result of [category_stats] holds of every
    value that a run stores. *)
Lemma categorize_and_analyze_values (P : CategoryStats -> Prop)
    (self : MarketSentimentAnalyzer) (net : NewsSource) :
  (forall l data, category_stats l = Ok data -> P data) ->
  forall results, categorize_and_analyze self net = Ok results ->
    Forall (fun kv => P (snd kv)) results.
Proof.
  intros HP. unfold categorize_and_analyze.
  assert (forall items acc results,
             Forall (fun kv => P (snd kv)) acc ->
             categorize_loop self net items acc = Ok results ->
             Forall (fun kv => P (snd kv)) results) as Hloop.
  { induction items as [|[category assets] items IH]; simpl; intros acc results Hacc Hrun.
    - now injection Hrun as <-.
    - destruct (analyze_category self net assets) as [stats|] eqn:E; simpl in Hrun;
        [|discriminate].
      apply (IH _ _ (Forall_values_dict_set P _ _ _
                       (let (l, Hl) := analyze_category_stats _ _ _ _ E in HP l stats Hl)
                       Hacc) Hrun). }
  intros results. apply Hloop. constructor.
Qed.

End StatsFacts.

(** The end-to-end scenario of the desk: four unique articles classified
    +1, +1, -1, 0 with confidences 0.9, 0.8, 0.7, 0.5; the mean
    confidence 0.725 is the fraction 29/40. *)
Example desk_statistics :
  exists data, categorize_and_analyze desk_analyzer desk_net = Ok [("gold", data)] /\
    positive_count data = 2 /\ negative_count data = 1 /\ neutral_count data = 1 /\
    total_mentions data = 4 /\
    positive_pct data = PFloat (50 # 1) /\ negative_pct data = PFloat (25 # 1) /\
    neutral_pct data = PFloat (25 # 1) /\ avg_confidence data = PFloat (29 # 40).
Proof.
  eexists. split; [reflexivity|]. repeat split.
Qed.

Lemma process_articles_raise {R : Runtime} (self : MarketSentimentAnalyzer)
    (pipe : string -> classifier_outcome) (a : RawArticle) (rest : list RawArticle)
    (src : pyval) :
  sentiment_pipeline self = Some pipe ->
  pipe (slice_to 512 (article_text a)) = ClassifierRaises ->
  source_name a = Ok src ->
  process_articles self (a :: rest) = classified a src 0 half :: process_articles self rest.
Proof.
  intros Hpipe Hraise Hsrc. cbn [process_articles].
  unfold process_article, analyze_sentiment.
  rewrite Hsrc, Hpipe, article_text_nonempty, Hraise. reflexivity.
Qed.

(** C2, as stated, fails: with a classifier that raises on every call, the
    one article of the batch is counted, as a neutral mention of
    confidence 0.5. *)
Lemma raising_classifier_is_counted :
  (exists pipe, sentiment_pipeline raising_analyzer = Some pipe /\
                forall text, pipe text = ClassifierRaises) /\
  exists data,
    category_stats
      (process_articles raising_analyzer
         [article "Markets wobble" "Stocks mixed" "https://n.example/9"]) = Ok data /\
    neutral_count data = 1 /\ total_mentions data = 1 /\
    avg_confidence data = PFloat (1 # 2) /\
    List.length (articles data) = 1%nat.
Proof.
  split.
  - eexists. split; reflexivity.
  - eexists. split; [reflexivity|]. repeat split.
Qed.

Lemma process_articles_app {R : Runtime} (self : MarketSentimentAnalyzer)
    (l1 l2 : list RawArticle) :
  process_articles self (l1 ++ l2)
  = (process_articles self l1 ++ process_articles self l2)%list.
Proof.
  induction l1 as [|a l1 IH]; [reflexivity|].
  cbn [app process_articles]. rewrite IH.
  now destruct (process_article self a) as [[r|]|].
Qed.

(** C2, amended: when the loaded classifier raises on an article (whose
    source is not [null]), wherever the article stands in the batch, it
    is not skipped: it is recorded in its place with sentiment 0 and
    confidence 0.5, so it adds one to [neutral_count] and to
    [total_mentions] beside what the articles before and after it
    contribute, nothing to the other two counts, and its 0.5 enters the
    mean of [avg_confidence]. *)
Theorem classifier_raise_counts_neutral {R : Runtime} (self : MarketSentimentAnalyzer)
    (pipe : string -> classifier_outcome) (before : list RawArticle) (a : RawArticle)
    (rest : list RawArticle) (src : pyval) :
  sentiment_pipeline self = Some pipe ->
  pipe (slice_to 512 (article_text a)) = ClassifierRaises ->
  source_name a = Ok src ->
  let earlier := process_articles self before in
  let others := process_articles self rest in
  process_articles self (before ++ a :: rest)
  = (earlier ++ classified a src 0 half :: others)%list /\
  exists data,
    category_stats (process_articles self (before ++ a :: rest)) = Ok data /\
    total_mentions data
    = Z.of_nat (List.length earlier) + 1 + Z.of_nat (List.length others) /\
    neutral_count data
    = count_where (fun r => sentiment r =? 0) earlier + 1
      + count_where (fun r => sentiment r =? 0) others /\
    positive_count data
    = count_where (fun r => sentiment r >? 0) earlier
      + count_where (fun r => sentiment r >? 0) others /\
    negative_count data
    = count_where (fun r => sentiment r <? 0) earlier
      + count_where (fun r => sentiment r <? 0) others /\
    avg_confidence data
    = PFloat (round_nd (mean (map confidence earlier ++ half :: map confidence others)) 3).
Proof.
  intros Hpipe Hraise Hsrc earlier others.
  rewrite process_articles_app,
    (process_articles_raise self pipe a rest src Hpipe Hraise Hsrc).
  fold earlier others. split; [reflexivity|].
  eexists. split; [apply category_stats_nonempty; now destruct earlier|].
  cbv beta zeta.
  cbn [total_mentions neutral_count positive_count negative_count avg_confidence].
  rewrite !count_where_app, !count_where_cons, map_app, length_app. cbn [sentiment classified].
  change (0 =? 0) with true. change (0 >? 0) with false. change (0 <? 0) with false.
  cbn [List.length map confidence classified]. rewrite Nat2Z.inj_add, Nat2Z.inj_succ.
  repeat split; lia.
Qed.

Lemma classifier_raise_counts_neutral_witness :
  let before := [article "Gold rally" "" "https://n.example/1"] in
  let a := article "Markets wobble" "Stocks mixed" "https://n.example/9" in
  let rest := [article "GLD slump" "" "https://n.example/3"] in
  let earlier := process_articles moody_analyzer before in
  let others := process_articles moody_analyzer rest in
  process_articles moody_analyzer (before ++ a :: rest)
  = (earlier ++ classified a (PyStr "Unknown") 0 half :: others)%list /\
  exists data,
    category_stats (process_articles moody_analyzer (before ++ a :: rest)) = Ok data /\
    total_mentions data
    = Z.of_nat (List.length earlier) + 1 + Z.of_nat (List.length others) /\
    neutral_count data
    = count_where (fun r => sentiment r =? 0) earlier + 1
      + count_where (fun r => sentiment r =? 0) others /\
    positive_count data
    = count_where (fun r => sentiment r >? 0) earlier
      + count_where (fun r => sentiment r >? 0) others /\
    negative_count data
    = count_where (fun r => sentiment r <? 0) earlier
      + count_where (fun r => sentiment r <? 0) others /\
    avg_confidence data
    = PFloat (round_nd (mean (map confidence earlier ++ half :: map confidence others)) 3).
Proof.
  apply (classifier_raise_counts_neutral moody_analyzer moody_pipeline
           [article "Gold rally" "" "https://n.example/1"]
           (article "Markets wobble" "Stocks mixed" "https://n.example/9")
           [article "GLD slump" "" "https://n.example/3"]
           (PyStr "Unknown")); reflexivity.
Defined.

(** The batch of the example: a positive article, the one on which the
    classifier raises, a negative article. *)
Example wobble_in_the_middle :
  map sentiment
    (process_articles moody_analyzer
       [article "Gold rally" "" "https://n.example/1";
        article "Markets wobble" "Stocks mixed" "https://n.example/9";
        article "GLD slump" "" "https://n.example/3"])
  = [1; 0; -1].
Proof. reflexivity. Qed.

(** C6: in every category result that a run produces, the three counts add
    up to [total_mentions]. *)
Theorem counts_sum_to_total_mentions {R : Runtime} (self : MarketSentimentAnalyzer)
    (net : NewsSource) (results : dict string CategoryStats) :
  categorize_and_analyze self net = Ok results ->
  forall category data, In (category, data) results ->
    positive_count data + negative_count data + neutral_count data = total_mentions data.
Proof.
  intros Hrun category data Hin.
  pose proof (categorize_and_analyze_values
                (fun d => positive_count d + negative_count d + neutral_count d
                          = total_mentions d)
                self net category_stats_partition results Hrun) as Hall.
  rewrite Forall_forall in Hall. exact (Hall _ Hin).
Qed.

Lemma counts_sum_to_total_mentions_witness :
  exists results, categorize_and_analyze desk_analyzer desk_net = Ok results /\
    forall category data, In (category, data) results ->
      positive_count data + negative_count data + neutral_count data = total_mentions data.
Proof.
  eexists. split; [reflexivity|].
  apply (counts_sum_to_total_mentions desk_analyzer desk_net). reflexivity.
Defined.

Lemma category_stats_percentages {R : Runtime} (l : list ClassifiedArticle)
    (data : CategoryStats) :
  category_stats l = Ok data ->
  (total_mentions data = 0 ->
     positive_pct data = PInt 0 /\ negative_pct data = PInt 0 /\
     neutral_pct data = PInt 0 /\ avg_confidence data = PInt 0) /\
  (0 < total_mentions data ->
     let pct := fun count =>
       PFloat (round_nd (fmul (fdiv count (total_mentions data)) 100) 2) in
     positive_pct data = pct (positive_count data) /\
     negative_pct data = pct (negative_count data) /\
     neutral_pct data = pct (neutral_count data)).
Proof.
  destruct l as [|r l].
  - intros H. injection H as <-. split.
    + intros _. repeat split.
    + cbn [total_mentions empty_stats]. intros Hpos. lia.
  - rewrite category_stats_nonempty by discriminate. intros H. injection H as <-. split.
    + cbn [total_mentions List.length]. intros Hzero. lia.
    + intros _. repeat split.
Qed.

(** C9: the statistics of a category are always computed, without a
    division by zero.  With no classified article ([total_mentions] is 0)
    the three percentages and [avg_confidence] are the integer 0; with
    some, each percentage is [count / total * 100] rounded to 2 decimals and
    [avg_confidence] is the mean confidence rounded to 3 decimals.  The
    same holds of every category record that a run stores. *)
Theorem percentages_guarded {R : Runtime} :
  (forall sentiments : list ClassifiedArticle,
     exists data,
       category_stats sentiments = Ok data /\
       total_mentions data = Z.of_nat (List.length sentiments) /\
       (total_mentions data = 0 ->
          positive_pct data = PInt 0 /\ negative_pct data = PInt 0 /\
          neutral_pct data = PInt 0 /\ avg_confidence data = PInt 0) /\
       (0 < total_mentions data ->
          let pct := fun count =>
            PFloat (round_nd (fmul (fdiv count (total_mentions data)) 100) 2) in
          positive_pct data = pct (positive_count data) /\
          negative_pct data = pct (negative_count data) /\
          neutral_pct data = pct (neutral_count data) /\
          avg_confidence data = PFloat (round_nd (mean (map confidence sentiments)) 3))) /\
  (forall self net results,
     categorize_and_analyze self net = Ok results ->
     forall category data, In (category, data) results ->
       (total_mentions data = 0 ->
          positive_pct data = PInt 0 /\ negative_pct data = PInt 0 /\
          neutral_pct data = PInt 0 /\ avg_confidence data = PInt 0) /\
       (0 < total_mentions data ->
          let pct := fun count =>
            PFloat (round_nd (fmul (fdiv count (total_mentions data)) 100) 2) in
          positive_pct data = pct (positive_count data) /\
          negative_pct data = pct (negative_count data) /\
          neutral_pct data = pct (neutral_count data))).
Proof.
  split.
  - intros sentiments. destruct sentiments as [|r l].
    + exists empty_stats. split; [reflexivity|]. split; [reflexivity|]. split.
      * intros _. repeat split.
      * cbn [total_mentions empty_stats]. intros Hpos. lia.
    + eexists. split; [apply category_stats_nonempty; discriminate|].
      split; [reflexivity|]. split.
      * cbn [total_mentions List.length]. intros Hzero. lia.
      * intros _. repeat split.
  - intros self net results Hrun category data Hin.
    pose proof (categorize_and_analyze_values _ self net
                  category_stats_percentages results Hrun) as Hall.
    rewrite Forall_forall in Hall. exact (Hall _ Hin).
Qed.

(* ================================================================== *)
(** ** Asset attribution *)
(* ================================================================== *)

Section AssetFacts.
Context {R : Runtime}.

Lemma tally_nil (acc : AssetAcc) : tally acc [] = acc.
Proof.
  destruct acc. unfold tally, count_where. simpl. f_equal; lia.
Qed.

Lemma sentiment_total_app (h1 h2 : list ClassifiedArticle) :
  sentiment_total (h1 ++ h2) = sentiment_total h1 + sentiment_total h2.
Proof.
  unfold sentiment_total. induction h1 as [|r h1 IH]; simpl; [reflexivity|].
  rewrite IH. lia.
Qed.

Lemma tally_app (acc : AssetAcc) (h1 h2 : list ClassifiedArticle) :
  tally (tally acc h1) h2 = tally acc (h1 ++ h2).
Proof.
  unfold tally. cbn [acc_mentions acc_positive acc_negative acc_sentiment_score].
  rewrite !count_where_app, sentiment_total_app, length_app, Nat2Z.inj_add.
  f_equal; lia.
Qed.

Lemma acc_of_record_mention_same (k : string) (a : ClassifiedArticle)
    (d : dict string AssetAcc) :
  acc_of k (record_mention k (sentiment a) d) = tally (acc_of k d) [a].
Proof.
  unfold record_mention. unfold acc_of at 1.
  rewrite (dict_get_set_same _ _ String.eqb String.eqb_eq).
  unfold tally. rewrite !count_where_cons. unfold count_where, sentiment_total.
  cbn [filter List.length fold_right Z.of_nat].
  destruct (Z.gtb_spec (sentiment a) 0), (Z.ltb_spec (sentiment a) 0);
    f_equal; lia.
Qed.

Lemma acc_of_record_mention_other (k k' : string) (s : Z) (d : dict string AssetAcc) :
  k' <> k -> acc_of k' (record_mention k s d) = acc_of k' d.
Proof.
  intros Hne. unfold record_mention. unfold acc_of at 1.
  now rewrite (dict_get_set_other _ _ String.eqb String.eqb_eq _ _ _ _ Hne).
Qed.

Lemma scan_assets_app (a : ClassifiedArticle) (l1 l2 : list string) :
  forall st, scan_assets a (l1 ++ l2) st = bind (scan_assets a l1 st) (scan_assets a l2).
Proof.
  induction l1 as [|k l1 IH]; intros st; simpl; [reflexivity|].
  destruct (mentions_asset k a); simpl; [apply IH | reflexivity].
Qed.

Lemma scan_lists_concat (a : ClassifiedArticle) (lists : list (list string)) :
  forall st, scan_lists a lists st = scan_assets a (List.concat lists) st.
Proof.
  induction lists as [|l lists IH]; intros st; simpl; [reflexivity|].
  rewrite scan_assets_app. destruct (scan_assets a l st); simpl; [apply IH | reflexivity].
Qed.

(** Keywords that are not scanned keep their accumulator. *)
Lemma scan_assets_untouched (a : ClassifiedArticle) (t : string) (kw : string)
    (ks : list string) :
  title a = PyStr t -> ~ In kw ks ->
  forall st, exists st', scan_assets a ks st = Ok st' /\ acc_of kw st' = acc_of kw st.
Proof.
  intros Ht. induction ks as [|k ks IH]; intros Hnotin st; simpl.
  - now exists st.
  - unfold mentions_asset. rewrite Ht. simpl.
    destruct (IH (fun H => Hnotin (or_intror H))
                (if contains (lower k) (lower t)
                 then record_mention k (sentiment a) st else st)) as (st' & Hrun & Hacc).
    exists st'. split; [exact Hrun|]. rewrite Hacc.
    destruct (contains (lower k) (lower t)); [|reflexivity].
    apply acc_of_record_mention_other. intros ->. apply Hnotin. now left.
Qed.

(** One article against a duplicate-free keyword list: every keyword of
    the list that matches the title receives the article once. *)
Lemma scan_assets_attributes (a : ClassifiedArticle) (t : string) (ks : list string) :
  title a = PyStr t -> NoDup ks ->
  forall st, exists st',
    scan_assets a ks st = Ok st' /\
    forall kw, In kw ks ->
      acc_of kw st' = tally (acc_of kw st) (filter (title_matches kw) [a]).
Proof.
  intros Ht. induction 1 as [|k ks Hnotin Hnd IH]; intros st.
  - exists st. split; [reflexivity | intros kw []].
  - cbn [scan_assets]. unfold mentions_asset. rewrite Ht. cbn [bind].
    set (st1 := if contains (lower k) (lower t)
                then record_mention k (sentiment a) st else st).
    destruct (IH st1) as (st' & Hrun & Hacc).
    exists st'. split; [exact Hrun|].
    intros kw [<-|Hin].
    + destruct (scan_assets_untouched a t k ks Ht Hnotin st1) as (st'' & Hrun' & Hsame).
      rewrite Hrun in Hrun'. injection Hrun' as <-. rewrite Hsame.
      cbn [filter]. unfold title_matches. rewrite Ht. subst st1.
      destruct (contains (lower k) (lower t)).
      * apply acc_of_record_mention_same.
      * now rewrite tally_nil.
    + rewrite (Hacc kw Hin). f_equal. subst st1.
      destruct (contains (lower k) (lower t)); [|reflexivity].
      apply acc_of_record_mention_other. intros ->. contradiction.
Qed.

Lemma scan_articles_attributes (self : MarketSentimentAnalyzer)
    (sample : list ClassifiedArticle) :
  NoDup (all_keywords self) ->
  Forall (fun a => title a <> PyNone) sample ->
  forall st, exists st',
    scan_articles self sample st = Ok st' /\
    forall kw, In kw (all_keywords self) ->
      acc_of kw st' = tally (acc_of kw st) (filter (title_matches kw) sample).
Proof.
  intros Hnd. induction 1 as [|a sample Ha _ IH]; intros st.
  - exists st. split; [reflexivity|]. intros kw _. now rewrite tally_nil.
  - cbn [scan_articles]. rewrite scan_lists_concat. fold (all_keywords self).
    destruct (title a) as [|t] eqn:Ht; [contradiction|].
    destruct (scan_assets_attributes a t (all_keywords self) Ht Hnd st)
      as (st1 & Hrun1 & Hacc1).
    rewrite Hrun1. cbn [bind].
    destruct (IH st1) as (st' & Hrun & Hacc).
    exists st'. split; [exact Hrun|].
    intros kw Hin. rewrite (Hacc kw Hin), (Hacc1 kw Hin), tally_app. f_equal.
    cbn [filter]. now destruct (title_matches kw a).
Qed.

Lemma collect_asset_stats_attributes (self : MarketSentimentAnalyzer)
    (all_data : dict string CategoryStats) :
  NoDup (all_keywords self) ->
  Forall (fun a => title a <> PyNone) (sampled all_data) ->
  forall st, exists st',
    collect_asset_stats self all_data st = Ok st' /\
    forall kw, In kw (all_keywords self) ->
      acc_of kw st' = tally (acc_of kw st) (filter (title_matches kw) (sampled all_data)).
Proof.
  intros Hnd. induction all_data as [|[category data] all_data IH]; intros Htitles st.
  - exists st. split; [reflexivity|]. intros kw _. apply eq_sym, tally_nil.
  - unfold sampled in Htitles. cbn [map List.concat snd] in Htitles.
    apply Forall_app in Htitles. destruct Htitles as [Hhere Hrest].
    cbn [collect_asset_stats].
    destruct (scan_articles_attributes self (articles data) Hnd Hhere st)
      as (st1 & Hrun1 & Hacc1).
    rewrite Hrun1. cbn [bind].
    destruct (IH Hrest st1) as (st' & Hrun & Hacc).
    exists st'. split; [exact Hrun|].
    intros kw Hin. rewrite (Hacc kw Hin), (Hacc1 kw Hin), tally_app.
    unfold sampled. cbn [map List.concat snd]. now rewrite filter_app.
Qed.

End AssetFacts.

(** C8: with the keyword lists free of repetitions and every sampled title
    a string, the scan succeeds and each keyword's entry counts exactly the
    sampled articles whose lower-cased title contains the lower-cased
    keyword: [mentions] is their number, [positive] and [negative] the
    number of them with sentiment above and below 0, [sentiment_score]
    the sum of their sentiments.  An article is counted under every
    keyword it matches, once each. *)
Theorem keyword_matches_counted_independently {R : Runtime}
    (self : MarketSentimentAnalyzer) (all_data : dict string CategoryStats) :
  NoDup (all_keywords self) ->
  Forall (fun a => title a <> PyNone) (sampled all_data) ->
  exists asset_stats,
    collect_asset_stats self all_data [] = Ok asset_stats /\
    forall kw, In kw (all_keywords self) ->
      let hits := filter (title_matches kw) (sampled all_data) in
      acc_mentions (acc_of kw asset_stats) = Z.of_nat (List.length hits) /\
      acc_positive (acc_of kw asset_stats) = count_where (fun r => sentiment r >? 0) hits /\
      acc_negative (acc_of kw asset_stats) = count_where (fun r => sentiment r <? 0) hits /\
      acc_sentiment_score (acc_of kw asset_stats) = sentiment_total hits.
Proof.
  intros Hnd Htitles.
  destruct (collect_asset_stats_attributes self all_data Hnd Htitles [])
    as (st & Hrun & Hacc).
  exists st. split; [exact Hrun|]. intros kw Hin hits.
  rewrite (Hacc kw Hin). fold hits. unfold acc_of, tally. simpl. repeat split.
Qed.

Lemma configured_keywords_distinct {R : Runtime}
    (loaded : option (string -> classifier_outcome)) :
  NoDup (all_keywords (init loaded)).
Proof.
  change (all_keywords (init loaded)) with (List.concat (values configured_categories)).
  assert (nodup string_dec (List.concat (values configured_categories))
          = List.concat (values configured_categories)) as <- by (vm_compute; reflexivity).
  apply NoDup_nodup.
Qed.

Lemma keyword_matches_counted_independently_witness :
  exists asset_stats,
    collect_asset_stats modelless_analyzer surge_data [] = Ok asset_stats /\
    forall kw, In kw (all_keywords modelless_analyzer) ->
      let hits := filter (title_matches kw) (sampled surge_data) in
      acc_mentions (acc_of kw asset_stats) = Z.of_nat (List.length hits) /\
      acc_positive (acc_of kw asset_stats) = count_where (fun r => sentiment r >? 0) hits /\
      acc_negative (acc_of kw asset_stats) = count_where (fun r => sentiment r <? 0) hits /\
      acc_sentiment_score (acc_of kw asset_stats) = sentiment_total hits.
Proof.
  apply (keyword_matches_counted_independently modelless_analyzer surge_data).
  - apply configured_keywords_distinct.
  - repeat constructor. discriminate.
Defined.

(** The title "Bitcoin and Ethereum surge" is one mention for "Bitcoin" and
    one for "Ethereum"; the substring test also finds "ETH" inside
    "Ethereum"; no other keyword is touched. *)
Example surge_mentions_both :
  collect_asset_stats modelless_analyzer surge_data [] =
  Ok [("Bitcoin", {| acc_mentions := 1; acc_positive := 1; acc_negative := 0;
                     acc_sentiment_score := 1 |});
      ("Ethereum", {| acc_mentions := 1; acc_positive := 1; acc_negative := 0;
                      acc_sentiment_score := 1 |});
      ("ETH", {| acc_mentions := 1; acc_positive := 1; acc_negative := 0;
                 acc_sentiment_score := 1 |})].
Proof.
  vm_compute. reflexivity.
Qed.

(* ================================================================== *)
(** ** Fetching and the shape of the report *)
(* ================================================================== *)

Section RunFacts.
Context {R : Runtime}.

Lemma bind_ok_eta {A : Type} (m : result A) : bind m (fun a => Ok a) = m.
Proof. now destruct m. Qed.

Lemma fetch_category_app (net : NewsSource) (l1 l2 : list string) :
  fetch_category net (l1 ++ l2) =
  bind (fetch_category net l1) (fun a =>
    bind (fetch_category net l2) (fun b => Ok (a ++ b)%list)).
Proof.
  induction l1 as [|k l1 IH]; simpl.
  - now destruct (fetch_category net l2).
  - destruct (fetch_news net k) as [fetched|]; simpl; [|reflexivity].
    rewrite IH. destruct (fetch_category net l1) as [a|]; simpl; [|reflexivity].
    destruct (fetch_category net l2) as [b|]; simpl; [|reflexivity].
    now rewrite app_assoc.
Qed.

Lemma fetch_category_skip (net : NewsSource) (kw : string) (before after : list string) :
  fetch_news net kw = Ok [] ->
  fetch_category net (before ++ kw :: after) = fetch_category net (before ++ after).
Proof.
  intros Hkw. rewrite !fetch_category_app. cbn [fetch_category]. rewrite Hkw.
  cbn [bind app]. now rewrite bind_ok_eta.
Qed.

Lemma fetch_category_nothing (net : NewsSource) (assets : list string) :
  (forall kw, fetch_news net kw = Ok []) -> fetch_category net assets = Ok [].
Proof.
  intros Hnet. induction assets as [|k assets IH]; simpl; [reflexivity|].
  now rewrite Hnet, IH.
Qed.

Lemma fetch_category_keyed (net : NewsSource) (assets : list string) :
  (forall kw, exists arts,
      fetch_news net kw = Ok arts /\ Forall (fun a => raw_url a <> None) arts) ->
  exists all, fetch_category net assets = Ok all /\ Forall (fun a => raw_url a <> None) all.
Proof.
  intros Hnet. induction assets as [|k assets (more & Hmore & Hkeyed)]; simpl.
  - exists []. now split.
  - destruct (Hnet k) as (arts & Harts & Hk). rewrite Harts, Hmore. simpl.
    exists (arts ++ more)%list. split; [reflexivity|]. apply Forall_app. now split.
Qed.

Lemma process_articles_no_model (self : MarketSentimentAnalyzer) (l : list RawArticle) :
  sentiment_pipeline self = None -> process_articles self l = [].
Proof.
  intros Hnone. induction l as [|a l IH]; simpl; [reflexivity|].
  unfold process_article, analyze_sentiment. rewrite Hnone.
  now destruct (source_name a).
Qed.

(** The two situations in which a category has nothing to count. *)
Lemma analyze_category_empty (self : MarketSentimentAnalyzer) (net : NewsSource)
    (assets : list string) :
  (sentiment_pipeline self = None /\
   forall kw, exists arts,
     fetch_news net kw = Ok arts /\ Forall (fun a => raw_url a <> None) arts)
  \/ (forall kw, fetch_news net kw = Ok []) ->
  analyze_category self net assets = Ok empty_stats.
Proof.
  unfold analyze_category. intros [[Hnone Hnet]|Hnet].
  - destruct (fetch_category_keyed net assets Hnet) as (all & Hall & Hkeyed).
    rewrite Hall. cbn [bind].
    destruct (unique_articles_survivors all Hkeyed) as (unique & Hunique & _).
    rewrite Hunique. cbn [bind]. now rewrite process_articles_no_model.
  - now rewrite (fetch_category_nothing net assets Hnet).
Qed.

Lemma in_keys_dict_set (k c : string) (v : CategoryStats) (d : dict string CategoryStats) :
  c = k \/ In c (keys d) -> In c (keys (dict_set String.eqb k v d)).
Proof.
  rewrite (keys_dict_set _ _ String.eqb).
  destruct (dict_get String.eqb k d) as [v'|] eqn:E.
  - intros [->|H]; [|exact H].
    apply (dict_get_some_keys _ _ String.eqb String.eqb_eq). now exists v'.
  - intros [->|H]; apply in_or_app; [right; now left | now left].
Qed.

Lemma categorize_loop_keys (self : MarketSentimentAnalyzer) (net : NewsSource)
    (items : list (string * list string)) :
  forall acc results, categorize_loop self net items acc = Ok results ->
    forall c, In c (keys items) \/ In c (keys acc) -> In c (keys results).
Proof.
  induction items as [|[category assets] items IH]; simpl; intros acc results Hrun c Hc.
  - injection Hrun as <-. destruct Hc as [[]|Hc]. exact Hc.
  - destruct (analyze_category self net assets) as [stats|]; simpl in Hrun; [|discriminate].
    apply (IH _ _ Hrun). destruct Hc as [[<-|Hc]|Hc].
    + right. apply in_keys_dict_set. now left.
    + now left.
    + right. apply in_keys_dict_set. now right.
Qed.

Lemma categorize_loop_empty (self : MarketSentimentAnalyzer) (net : NewsSource)
    (items : list (string * list string)) :
  (forall assets, analyze_category self net assets = Ok empty_stats) ->
  forall acc, Forall (fun kv => snd kv = empty_stats) acc ->
    exists results, categorize_loop self net items acc = Ok results /\
                    Forall (fun kv => snd kv = empty_stats) results.
Proof.
  intros Hempty. induction items as [|[category assets] items IH]; simpl; intros acc Hacc.
  - now exists acc.
  - rewrite Hempty. cbn [bind]. apply IH.
    now apply (Forall_values_dict_set (fun v => v = empty_stats)).
Qed.

Lemma collect_asset_stats_no_articles (self : MarketSentimentAnalyzer)
    (all_data : dict string CategoryStats) (st : dict string AssetAcc) :
  Forall (fun kv => snd kv = empty_stats) all_data ->
  collect_asset_stats self all_data st = Ok st.
Proof.
  induction 1 as [|[c data] all_data Hdata _ IH]; simpl; [reflexivity|].
  simpl in Hdata. subst data. simpl. exact IH.
Qed.

Lemma dict_get_value_in {V : Type} (k : string) (v : V) (d : dict string V) :
  dict_get String.eqb k d = Some v -> exists k', In (k', v) d.
Proof.
  induction d as [|[k' v'] d IH]; simpl; [discriminate|].
  destruct (String.eqb k k').
  - intros H. injection H as ->. exists k'. now left.
  - intros H. destruct (IH H) as [k'' Hin]. exists k''. now right.
Qed.

Lemma dict_get_map_values {V W : Type} (f : V -> W) (k : string) (d : dict string V) :
  dict_get String.eqb k (map (fun item => (fst item, f (snd item))) d)
  = option_map f (dict_get String.eqb k d).
Proof.
  induction d as [|[k' v'] d IH]; simpl; [reflexivity|].
  now destruct (String.eqb k k').
Qed.

(** A run in which no category has anything to count completes, with the
    all-zero record everywhere and empty rankings. *)
Lemma generate_report_quiet (self : MarketSentimentAnalyzer) (net : NewsSource)
    (now : string) :
  (sentiment_pipeline self = None /\
   forall kw, exists arts,
     fetch_news net kw = Ok arts /\ Forall (fun a => raw_url a <> None) arts)
  \/ (forall kw, fetch_news net kw = Ok []) ->
  exists results,
    categorize_and_analyze self net = Ok results /\
    Forall (fun kv => snd kv = empty_stats) results /\
    generate_report self net now =
    Ok {| timestamp := now;
          market_sentiment := map (fun item => (fst item, summarize (snd item))) results;
          top_assets := {| most_talked := []; least_talked := [];
                           most_positive := []; most_negative := [] |};
          detailed_category_data := results |}.
Proof.
  intros Hquiet.
  destruct (categorize_loop_empty self net (asset_categories self)
              (fun assets => analyze_category_empty self net assets Hquiet)
              [] (Forall_nil _)) as (results & Hrun & Hall).
  exists results. split; [exact Hrun|]. split; [exact Hall|].
  unfold generate_report, identify_top_assets. unfold categorize_and_analyze in *.
  rewrite Hrun. cbn [bind].
  now rewrite (collect_asset_stats_no_articles self results [] Hall).
Qed.

End RunFacts.

Lemma fetch_category_nothing_in {R : Runtime} (net : NewsSource) (assets : list string) :
  (forall kw, In kw assets -> fetch_news net kw = Ok []) -> fetch_category net assets = Ok [].
Proof.
  induction assets as [|k assets IH]; intros Hnet; simpl; [reflexivity|].
  rewrite (Hnet k (or_introl eq_refl)), IH; [reflexivity|].
  intros kw Hkw. apply Hnet. now right.
Qed.

(** A category with no model to classify, or whose own fetches all give
    nothing, can only end with the all-zero record. *)
Lemma quiet_category_empty {R : Runtime} (self : MarketSentimentAnalyzer)
    (net : NewsSource) (assets : list string) (data : CategoryStats) :
  sentiment_pipeline self = None \/ (forall kw, In kw assets -> fetch_news net kw = Ok []) ->
  analyze_category self net assets = Ok data -> data = empty_stats.
Proof.
  unfold analyze_category. intros [Hnone|Hnet].
  - destruct (fetch_category net assets) as [all|]; cbn [bind]; [|discriminate].
    destruct (unique_articles all) as [unique|]; cbn [bind]; [|discriminate].
    rewrite (process_articles_no_model self unique Hnone). intros H. now injection H.
  - rewrite (fetch_category_nothing_in net assets Hnet). intros H. now injection H.
Qed.

Lemma categorize_loop_quiet {R : Runtime} (self : MarketSentimentAnalyzer)
    (net : NewsSource) (category : string) (items : list (string * list string)) :
  (forall assets, In (category, assets) items ->
     sentiment_pipeline self = None \/ forall kw, In kw assets -> fetch_news net kw = Ok []) ->
  forall acc results,
    categorize_loop self net items acc = Ok results ->
    dict_get String.eqb category acc = Some empty_stats \/ In category (keys items) ->
    dict_get String.eqb category results = Some empty_stats.
Proof.
  induction items as [|[c assets] items IH]; intros Hquiet acc results Hrun Hc.
  - simpl in Hrun. injection Hrun as <-. destruct Hc as [Hc|[]]. exact Hc.
  - cbn [categorize_loop] in Hrun.
    destruct (analyze_category self net assets) as [stats|] eqn:E; cbn [bind] in Hrun;
      [|discriminate].
    apply (IH (fun assets' H => Hquiet assets' (or_intror H)) _ _ Hrun).
    destruct (String.eqb_spec category c) as [->|Hne].
    + left. rewrite (quiet_category_empty self net assets stats
                       (Hquiet assets (or_introl eq_refl)) E).
      apply (dict_get_set_same _ _ String.eqb String.eqb_eq).
    + destruct Hc as [Hc|[Hc|Hc]].
      * left. now rewrite (dict_get_set_other _ _ String.eqb String.eqb_eq _ _ _ _ Hne).
      * simpl in Hc. congruence.
      * now right.
Qed.

(** C10: a generated report has an entry for every configured category name
    in both [market_sentiment] and [detailed_category_data].  When the
    classifier is unavailable (and the fetched articles carry their url),
    or when every fetch fails or returns nothing, the report is still
    generated and every configured category holds the all-zero record with
    an empty articles list.  In every generated report, a category whose
    own fetches all fail or return nothing, and any category when the
    classifier is unavailable, holds the all-zero record, whatever the
    other categories hold. *)
Theorem every_category_reported {R : Runtime} (self : MarketSentimentAnalyzer)
    (net : NewsSource) (now : string) :
  (forall report, generate_report self net now = Ok report ->
     forall category, In category (keys (asset_categories self)) ->
       (exists summary,
           dict_get String.eqb category (market_sentiment report) = Some summary) /\
       (exists data,
           dict_get String.eqb category (detailed_category_data report) = Some data)) /\
  ((sentiment_pipeline self = None /\
    forall kw, exists arts,
      fetch_news net kw = Ok arts /\ Forall (fun a => raw_url a <> None) arts)
   \/ (forall kw, fetch_news net kw = Ok []) ->
   exists report, generate_report self net now = Ok report /\
     forall category, In category (keys (asset_categories self)) ->
       dict_get String.eqb category (market_sentiment report) = Some (summarize empty_stats) /\
       dict_get String.eqb category (detailed_category_data report) = Some empty_stats) /\
  (forall report, generate_report self net now = Ok report ->
     forall category, In category (keys (asset_categories self)) ->
       (forall assets, In (category, assets) (asset_categories self) ->
          sentiment_pipeline self = None \/
          forall kw, In kw assets -> fetch_news net kw = Ok []) ->
       dict_get String.eqb category (market_sentiment report) = Some (summarize empty_stats) /\
       dict_get String.eqb category (detailed_category_data report) = Some empty_stats).
Proof.
  split; [|split].
  - intros report Hgen category Hin. unfold generate_report in Hgen.
    destruct (categorize_and_analyze self net) as [results|] eqn:Hrun; simpl in Hgen;
      [|discriminate].
    destruct (identify_top_assets self results) as [top|]; simpl in Hgen; [|discriminate].
    injection Hgen as <-. cbn [market_sentiment detailed_category_data].
    assert (In category (keys results)) as Hkey
      by (apply (categorize_loop_keys self net _ _ _ Hrun); now left).
    apply (dict_get_some_keys _ _ String.eqb String.eqb_eq) in Hkey.
    destruct Hkey as [data Hdata]. split.
    + exists (summarize data). now rewrite dict_get_map_values, Hdata.
    + now exists data.
  - intros Hquiet.
    destruct (generate_report_quiet self net now Hquiet) as (results & Hrun & Hall & Hgen).
    eexists. split; [exact Hgen|].
    intros category Hin. cbn [market_sentiment detailed_category_data].
    assert (In category (keys results)) as Hkey
      by (apply (categorize_loop_keys self net _ _ _ Hrun); now left).
    apply (dict_get_some_keys _ _ String.eqb String.eqb_eq) in Hkey.
    destruct Hkey as [data Hdata].
    assert (data = empty_stats) as ->.
    { destruct (dict_get_value_in _ _ _ Hdata) as [k' Hk'].
      rewrite Forall_forall in Hall. exact (Hall _ Hk'). }
    split; [|exact Hdata]. now rewrite dict_get_map_values, Hdata.
  - intros report Hgen category Hin Hquiet. unfold generate_report in Hgen.
    destruct (categorize_and_analyze self net) as [results|] eqn:Hrun; simpl in Hgen;
      [|discriminate].
    destruct (identify_top_assets self results) as [top|]; simpl in Hgen; [|discriminate].
    injection Hgen as <-. cbn [market_sentiment detailed_category_data].
    pose proof (categorize_loop_quiet self net category (asset_categories self) Hquiet
                  [] results Hrun (or_intror Hin)) as Hdata.
    split; [|exact Hdata]. now rewrite dict_get_map_values, Hdata.
Qed.

Lemma two_desk_report_run :
  generate_report two_desk_analyzer desk_net "2024-05-01T09:00:00" = Ok two_desk_report.
Proof. vm_cast_no_check (eq_refl (Ok two_desk_report)). Qed.

(** On the two-category desk "gold" has four classified articles while
    "silver", whose fetches both fail, holds the all-zero record. *)
Lemma every_category_reported_witness :
  generate_report two_desk_analyzer desk_net "2024-05-01T09:00:00" = Ok two_desk_report /\
  option_map total_mentions
    (dict_get String.eqb "gold" (detailed_category_data two_desk_report)) = Some 4 /\
  dict_get String.eqb "silver" (market_sentiment two_desk_report)
  = Some (summarize empty_stats) /\
  dict_get String.eqb "silver" (detailed_category_data two_desk_report) = Some empty_stats.
Proof.
  split; [exact two_desk_report_run|]. split; [reflexivity|].
  apply (proj2 (proj2 (every_category_reported two_desk_analyzer desk_net
                         "2024-05-01T09:00:00")) two_desk_report two_desk_report_run "silver").
  - simpl. auto.
  - intros assets [H|[H|[]]]; [discriminate H|]. injection H as <-. right.
    intros kw [<-|[<-|[]]]; reflexivity.
Defined.

(** C7, as stated, fails: a response whose ['articles'] is [null] for the
    one keyword "Bitcoin" is not degraded to zero articles; [fetch_news]
    raises [TypeError] and the whole run ends with it. *)
Lemma malformed_response_aborts_run :
  null_for_bitcoin "Bitcoin" = JsonObject ArticlesNull /\
  fetch_news null_for_bitcoin "Bitcoin" = Raise TypeError /\
  categorize_and_analyze modelless_analyzer null_for_bitcoin = Raise TypeError /\
  generate_report modelless_analyzer null_for_bitcoin "2024-05-01T09:00:00" = Raise TypeError.
Proof.
  repeat split.
Qed.

(** C7, amended: a fetch that fails with a [RequestException] (network
    failure, timeout, HTTP error status such as a rate limit) yields zero
    articles for its keyword, and the category is processed exactly as if
    the keyword were not in its list; a run in which every fetch fails
    that way still produces its report. *)
Theorem request_failure_degrades_to_empty {R : Runtime} (self : MarketSentimentAnalyzer)
    (net : NewsSource) (kw : string) :
  net kw = RequestException ->
  fetch_news net kw = Ok [] /\
  (forall before after,
     fetch_category net (before ++ kw :: after) = fetch_category net (before ++ after) /\
     analyze_category self net (before ++ kw :: after)
     = analyze_category self net (before ++ after)) /\
  ((forall k, net k = RequestException) ->
   forall now, exists report, generate_report self net now = Ok report).
Proof.
  intros Hfail.
  assert (fetch_news net kw = Ok []) as Hnone by (unfold fetch_news; now rewrite Hfail).
  split; [exact Hnone|]. split.
  - intros before after.
    pose proof (fetch_category_skip net kw before after Hnone) as Hskip.
    split; [exact Hskip|]. unfold analyze_category. now rewrite Hskip.
  - intros Hall now.
    assert (forall k, fetch_news net k = Ok []) as Hquiet
      by (intros k; unfold fetch_news; now rewrite Hall).
    destruct (generate_report_quiet self net now (or_intror Hquiet))
      as (results & _ & _ & Hgen).
    eexists. exact Hgen.
Qed.

Lemma request_failure_degrades_to_empty_witness :
  fetch_news unreachable "gold" = Ok [] /\
  (forall before after,
     fetch_category unreachable (before ++ "gold" :: after)
     = fetch_category unreachable (before ++ after) /\
     analyze_category desk_analyzer unreachable (before ++ "gold" :: after)
     = analyze_category desk_analyzer unreachable (before ++ after)) /\
  forall now, exists report, generate_report desk_analyzer unreachable now = Ok report.
Proof.
  destruct (request_failure_degrades_to_empty desk_analyzer unreachable "gold" eq_refl)
    as (Hnone & Hskip & Hrun).
  split; [exact Hnone|]. split; [exact Hskip|].
  apply Hrun. reflexivity.
Defined.

(* ================================================================== *)
(** ** Persistence *)
(* ================================================================== *)

Lemma string_app_nil_r (s : string) : s ++ "" = s.
Proof. induction s as [|a s IH]; simpl; [reflexivity | now rewrite IH]. Qed.

Lemma string_app_assoc (s t u : string) : (s ++ t) ++ u = s ++ t ++ u.
Proof. induction s as [|a s IH]; simpl; [reflexivity | now rewrite IH]. Qed.

Lemma write_chunks_all (chunks : list string) :
  forall content, write_chunks chunks None content = (content ++ written chunks, true).
Proof.
  induction chunks as [|c chunks IH]; intros content; simpl.
  - now rewrite string_app_nil_r.
  - now rewrite IH, string_app_assoc.
Qed.

Lemma write_chunks_fail (chunks : list string) :
  forall n content, (n < List.length chunks)%nat ->
    write_chunks chunks (Some n) content = (content ++ written (firstn n chunks), false).
Proof.
  induction chunks as [|c chunks IH]; intros n content Hn; simpl in Hn; [lia|].
  destruct n as [|n]; simpl.
  - now rewrite string_app_nil_r.
  - rewrite IH by lia. now rewrite string_app_assoc.
Qed.

(** C4, as stated, fails: when the second write of a save raises, the
    store holds the first piece only, which is neither the document stored
    before nor the complete new report. *)
Lemma failed_write_leaves_partial_document :
  save_report three_pieces blank_report "market_sentiment_data.json" (WriteFails 1)
    (Some previous_document) = (Some "{", None) /\
  "{" <> previous_document /\
  "{" <> written (three_pieces blank_report).
Proof.
  repeat split; discriminate.
Qed.

(** C4, amended: a save that meets no fault replaces the stored document by
    the complete serialization of the report, with nothing of the previous
    document left; a save whose [open] fails leaves the stored document
    unchanged; a save whose write number [n] fails leaves only the first
    [n] pieces of the new serialization, the previous document being gone,
    and returns [None]. *)
Theorem save_report_outcomes {R : Runtime} (json_chunks : Report -> list string)
    (report : Report) (filename : string) (stored : option string) :
  save_report json_chunks report filename NoFault stored
  = (Some (written (json_chunks report)), Some filename) /\
  save_report json_chunks report filename OpenFails stored = (stored, None) /\
  forall n, (n < List.length (json_chunks report))%nat ->
    save_report json_chunks report filename (WriteFails n) stored
    = (Some (written (firstn n (json_chunks report))), None).
Proof.
  unfold save_report. split; [|split].
  - now rewrite write_chunks_all.
  - reflexivity.
  - intros n Hn. now rewrite write_chunks_fail.
Qed.

Lemma save_report_outcomes_witness :
  save_report three_pieces blank_report "market_sentiment_data.json" (WriteFails 2)
    (Some previous_document)
  = (Some (written (firstn 2 (three_pieces blank_report))), None).
Proof.
  apply (proj2 (proj2 (save_report_outcomes three_pieces blank_report
                         "market_sentiment_data.json" (Some previous_document)))).
  simpl. lia.
Defined.

(* ================================================================== *)
(** ** The trigger lock *)
(* ================================================================== *)

Lemma locked_driver_step (t : App.thread) (h lock : bool) :
  locked_driver t h ->
  forall lock' t', App.step_thread lock t = Some (lock', t') ->
    (h = false -> lock = false /\ lock' = true /\ locked_driver t' true)
    /\ (h = true ->
        (lock' = lock /\ locked_driver t' true) \/ (lock' = false /\ locked_driver t' false)).
Proof.
  intros Ht lock' t' Hstep. inversion Ht; subst; unfold App.step_thread in Hstep;
    simpl in Hstep.
  - destruct lock; [discriminate|]. injection Hstep as <- <-.
    split; [intros _; repeat split; constructor | discriminate].
  - injection Hstep as <- <-. split; [discriminate|]. intros _. left. split; constructor.
  - injection Hstep as <- <-. split; [discriminate|]. intros _. left. split; constructor.
  - injection Hstep as <- <-. split; [discriminate|]. intros _. right. split; constructor.
  - discriminate.
Qed.

Lemma serialized_step (who : App.tid) (s s' : App.system) :
  serialized s -> App.step who s = Some s' -> serialized s'.
Proof.
  intros (h1 & h2 & H1 & H2 & Hlock & Hexcl) Hstep.
  destruct s as [lock sched hand]. simpl in *. subst lock.
  destruct who; simpl in Hstep.
  - destruct (App.step_thread (h1 || h2) sched) as [[l t]|] eqn:E; [|discriminate].
    injection Hstep as <-.
    destruct (locked_driver_step _ _ _ H1 _ _ E) as [Hfree Hheld].
    destruct h1.
    + destruct (Hheld eq_refl) as [[-> Ht]|[-> Ht]].
      * exists true, h2. simpl in *. now subst h2.
      * exists false, h2. simpl in *. subst h2. repeat split; assumption.
    + destruct (Hfree eq_refl) as (Hl & -> & Ht). simpl in Hl. subst h2.
      exists true, false. repeat split; assumption.
  - destruct (App.step_thread (h1 || h2) hand) as [[l t]|] eqn:E; [|discriminate].
    injection Hstep as <-.
    destruct (locked_driver_step _ _ _ H2 _ _ E) as [Hfree Hheld].
    destruct h2.
    + destruct (Hheld eq_refl) as [[-> Ht]|[-> Ht]].
      * exists h1, true. simpl in *. rewrite Bool.andb_true_r in Hexcl. subst h1.
        repeat split; assumption.
      * exists h1, false. simpl in *. rewrite Bool.andb_true_r in Hexcl. subst h1.
        repeat split; assumption.
    + destruct (Hfree eq_refl) as (Hl & -> & Ht).
      rewrite Bool.orb_false_r in Hl. subst h1.
      exists false, true. repeat split; assumption.
Qed.

(** Were both drivers to take the lock, no interleaving would ever have two
    pipeline executions at once. *)
Lemma both_locked_never_overlap (order : list App.tid) (s : App.system) :
  App.run order both_locked = Some s -> App.overlapping s = false.
Proof.
  assert (forall order s0 s1, serialized s0 -> App.run order s0 = Some s1 -> serialized s1)
    as Hrun.
  { clear. induction order as [|who order IH]; simpl; intros s0 s1 H0 Hrun.
    - now injection Hrun as <-.
    - destruct (App.step who s0) as [s'|] eqn:E; [|discriminate].
      apply (IH _ _ (serialized_step _ _ _ H0 E) Hrun). }
  intros Hs.
  assert (serialized both_locked) as H0.
  { exists false, false. repeat split; constructor. }
  destruct (Hrun _ _ _ H0 Hs) as (h1 & h2 & H1 & H2 & _ & Hexcl).
  unfold App.overlapping.
  inversion H1; subst; inversion H2; subst; simpl in *; congruence.
Qed.

(** C3 does not hold of the drivers as written: the scheduler takes the
    lock and enters the pipeline, and the manual trigger, which never asks
    for the lock, enters it too. *)
Theorem manual_trigger_overlaps_scheduled_run :
  exists s,
    App.run [App.Scheduler; App.Scheduler; App.Handler] App.initial = Some s /\
    App.lock_held s = true /\
    App.in_pipeline (App.scheduler s) = true /\
    App.in_pipeline (App.handler s) = true /\
    App.overlapping s = true.
Proof.
  eexists. split; [reflexivity|]. repeat split.
Qed.

(* ================================================================== *)
(** ** More on deduplication *)
(* ================================================================== *)

Lemma url_dict_key_error (batch : list RawArticle) :
  forall d, url_dict batch d = Raise KeyError <-> Exists (fun a => raw_url a = None) batch.
Proof.
  induction batch as [|a rest IH]; intros d; simpl.
  - split; [discriminate | intros H; inversion H].
  - destruct (raw_url a) as [u|] eqn:Hu.
    + rewrite IH. split; [now right|]. intros H. inversion H; subst; [congruence | assumption].
    + split; [intros _; now left | reflexivity].
Qed.

Lemma url_dict_ok_keyed (batch : list RawArticle) :
  forall d d', url_dict batch d = Ok d' -> Forall (fun a => raw_url a <> None) batch.
Proof.
  induction batch as [|a rest IH]; intros d d' Hrun; [constructor|].
  simpl in Hrun. destruct (raw_url a) as [u|] eqn:Hu; [|discriminate].
  constructor; [congruence | exact (IH _ _ Hrun)].
Qed.

(** The deduplication stops with [KeyError] exactly when some article of
    the batch has no ['url'] key; otherwise it returns a list. *)
Theorem unique_articles_raises_iff_keyless (batch : list RawArticle) :
  (unique_articles batch = Raise KeyError <-> Exists (fun a => raw_url a = None) batch) /\
  ((exists out, unique_articles batch = Ok out) <->
   Forall (fun a => raw_url a <> None) batch).
Proof.
  unfold unique_articles. split.
  - rewrite <- (url_dict_key_error batch []).
    destruct (url_dict batch []) as [d|e]; simpl; [split; discriminate | split; congruence].
  - split.
    + intros [out Hout]. destruct (url_dict batch []) as [d|e] eqn:E; [|discriminate].
      exact (url_dict_ok_keyed _ _ _ E).
    + intros Hkeys. destruct (url_dict_total _ Hkeys []) as [d Hd].
      exists (values d). now rewrite Hd.
Qed.

Lemma url_dict_values_from (batch : list RawArticle) :
  forall d d', url_dict batch d = Ok d' ->
    (forall a, In a (values d') -> In a (values d) \/ In a batch) /\
    (List.length d' <= List.length d + List.length batch)%nat.
Proof.
  induction batch as [|a rest IH]; intros d d' Hrun; simpl in Hrun.
  - injection Hrun as <-. split; [now left | simpl; lia].
  - destruct (raw_url a) as [u|]; [|discriminate].
    destruct (IH _ _ Hrun) as [Hin Hlen]. split.
    + intros x Hx. destruct (Hin x Hx) as [Hd|Hrest]; [|right; now right].
      clear - Hd. unfold values in *.
      induction d as [|[k v] d IHd]; simpl in Hd.
      * destruct Hd as [<-|[]]. right. now left.
      * destruct (pyval_eqb u k); simpl in Hd.
        -- destruct Hd as [<-|Hd]; [right; now left | left; now right].
        -- destruct Hd as [<-|Hd]; [left; now left|].
           destruct (IHd Hd) as [H|H]; [left; now right | now right].
    + assert (List.length (dict_set pyval_eqb u a d) <= S (List.length d))%nat as Hset.
      { clear. induction d as [|[k v] d IHd]; simpl; [lia|].
        destruct (pyval_eqb u k); simpl; lia. }
      simpl. lia.
Qed.

Lemma url_dict_output (batch : list RawArticle) (d : dict pyval RawArticle) :
  url_dict batch [] = Ok d ->
  NoDup (map raw_url (values d)) /\
  (forall a, In a (values d) -> In a batch) /\
  (forall a, In a batch -> exists b, In b (values d) /\ raw_url b = raw_url a) /\
  (List.length (values d) <= List.length batch)%nat.
Proof.
  intros Hd.
  assert (keyed_by_url []) as H0 by (split; constructor).
  destruct (url_dict_spec batch _ _ H0 Hd) as [[Hnd Hall] Hget].
  destruct (url_dict_values_from batch _ _ Hd) as [Hfrom Hlen].
  pose proof (url_dict_ok_keyed _ _ _ Hd) as Hkeys.
  repeat split.
  - assert (map raw_url (values d) = map Some (keys d)) as ->.
    { clear - Hall. unfold values, keys. induction Hall as [|[k v] d Hkv _ IH]; simpl;
        [reflexivity|]. simpl in Hkv. now rewrite Hkv, IH. }
    clear - Hnd. induction Hnd as [|k ks Hk _ IH]; simpl; constructor; [|exact IH].
    intros Hin. apply in_map_iff in Hin. destruct Hin as (x & Hx & Hin).
    injection Hx as ->. contradiction.
  - intros a Ha. destruct (Hfrom a Ha) as [[]|H]. exact H.
  - intros a Ha. rewrite Forall_forall in Hkeys.
    destruct (raw_url a) as [u|] eqn:Hu; [|exfalso; exact (Hkeys a Ha Hu)].
    specialize (Hget u).
    destruct (find_last (has_url u) batch) as [b|] eqn:Hlast.
    + destruct (find_last_split _ _ _ Hlast) as (_ & _ & _ & Hb & _).
      apply has_url_true in Hb. exists b. split; [|exact Hb].
      clear - Hget. unfold values. induction d as [|[k v] d IH]; simpl in *; [discriminate|].
      destruct (pyval_eqb u k); [injection Hget as ->; now left | right; auto].
    + apply find_last_none in Hlast. rewrite Forall_forall in Hlast.
      specialize (Hlast a Ha). apply has_url_false in Hlast. contradiction.
  - unfold values. rewrite length_map. simpl in Hlen. exact Hlen.
Qed.

(** What deduplication returns has pairwise distinct urls, contains only
    articles of the batch, keeps an article for every url of the batch, and
    is never longer than the batch. *)
Theorem unique_articles_distinct_cover (batch out : list RawArticle) :
  unique_articles batch = Ok out ->
  NoDup (map raw_url out) /\
  (forall a, In a out -> In a batch) /\
  (forall a, In a batch -> exists b, In b out /\ raw_url b = raw_url a) /\
  (List.length out <= List.length batch)%nat.
Proof.
  unfold unique_articles. destruct (url_dict batch []) as [d|e] eqn:Hd; [|discriminate].
  simpl. intros H. injection H as <-. exact (url_dict_output batch d Hd).
Qed.

Lemma unique_articles_distinct_cover_witness :
  NoDup (map raw_url [same_url_second; no_url_second]) /\
  (forall a, In a [same_url_second; no_url_second] ->
     In a [same_url_first; no_url_first; same_url_second; no_url_second]) /\
  (forall a, In a [same_url_first; no_url_first; same_url_second; no_url_second] ->
     exists b, In b [same_url_second; no_url_second] /\ raw_url b = raw_url a) /\
  (List.length [same_url_second; no_url_second]
   <= List.length [same_url_first; no_url_first; same_url_second; no_url_second])%nat.
Proof.
  apply (unique_articles_distinct_cover
           [same_url_first; no_url_first; same_url_second; no_url_second]
           [same_url_second; no_url_second]).
  reflexivity.
Defined.

Lemma dict_set_absent {K V : Type} (eqb : K -> K -> bool) (k : K) (v : V) (d : dict K V) :
  dict_get eqb k d = None -> dict_set eqb k v d = (d ++ [(k, v)])%list.
Proof.
  induction d as [|[k' v'] d IH]; simpl; [reflexivity|].
  destruct (eqb k k'); [discriminate|]. intros H. now rewrite IH.
Qed.

Lemma url_dict_fresh (batch : list RawArticle) :
  forall d,
    Forall (fun a => raw_url a <> None) batch ->
    NoDup (map Some (keys d) ++ map raw_url batch) ->
    url_dict batch d
    = Ok (d ++ map (fun a => (get_default (raw_url a) PyNone, a)) batch)%list.
Proof.
  induction batch as [|a rest IH]; intros d Hkeys Hnd.
  - simpl. now rewrite app_nil_r.
  - inversion Hkeys as [|? ? Ha Hrest]; subst.
    cbn [url_dict map]. cbn [map] in Hnd.
    destruct (raw_url a) as [u|] eqn:Hu; [|contradiction]. cbn [get_default].
    assert (dict_get pyval_eqb u d = None) as Hfree.
    { apply (dict_get_none_keys _ _ pyval_eqb pyval_eqb_eq). intros Hin.
      apply (NoDup_remove_2 _ _ _ Hnd). apply in_or_app. left. now apply in_map. }
    rewrite (dict_set_absent pyval_eqb u a d Hfree).
    rewrite IH; [now rewrite <- app_assoc | exact Hrest |].
    unfold keys in *. rewrite map_app, map_app, <- app_assoc. exact Hnd.
Qed.

(** A batch whose articles carry pairwise distinct urls passes through the
    deduplication unchanged, in the same order; hence deduplicating twice
    gives what deduplicating once gives. *)
Theorem unique_articles_idempotent (batch : list RawArticle) :
  (Forall (fun a => raw_url a <> None) batch -> NoDup (map raw_url batch) ->
   unique_articles batch = Ok batch) /\
  (forall out, unique_articles batch = Ok out -> unique_articles out = Ok out).
Proof.
  assert (forall l, Forall (fun a => raw_url a <> None) l -> NoDup (map raw_url l) ->
                    unique_articles l = Ok l) as Hfix.
  { intros l Hkeys Hnd. unfold unique_articles.
    rewrite (url_dict_fresh l [] Hkeys Hnd). simpl. unfold values.
    rewrite map_map. simpl. now rewrite map_id. }
  split; [apply Hfix|].
  intros out. unfold unique_articles at 1.
  destruct (url_dict batch []) as [d|e] eqn:Hd; [|discriminate].
  simpl. intros H. injection H as <-.
  destruct (url_dict_output batch d Hd) as (Hnd & Hsub & _ & _).
  apply Hfix; [|exact Hnd].
  apply Forall_forall. intros a Ha.
  pose proof (url_dict_ok_keyed _ _ _ Hd) as Hkeys.
  rewrite Forall_forall in Hkeys. exact (Hkeys a (Hsub a Ha)).
Qed.

(* ================================================================== *)
(** ** More on classification *)
(* ================================================================== *)

Lemma length_slice_to (n : nat) (text : string) :
  (py_len (slice_to n text) <= n)%nat.
Proof.
  revert n. induction text as [|c text IH]; intros n; [simpl; lia|].
  unfold slice_to; fold slice_to. destruct (is_continuation c) eqn:Hc.
  - cbn [py_len]. rewrite Hc. apply IH.
  - destruct n as [|n]; [simpl; lia|]. cbn [py_len]. rewrite Hc. specialize (IH n). lia.
Qed.

(** Slicing and length count characters, not bytes. *)
Example slice_keeps_whole_characters :
  slice_to 3 "héllo" = "hél" /\ py_len "héllo" = 5%nat /\ py_len "onça de ouro" = 12%nat.
Proof. repeat split. Qed.

Section ClassifierFacts.
Context {R : Runtime}.

Lemma process_articles_ext (self self' : MarketSentimentAnalyzer) (l : list RawArticle) :
  (forall text, analyze_sentiment self text = analyze_sentiment self' text) ->
  process_articles self l = process_articles self' l.
Proof.
  intros Hsame. induction l as [|a l IH]; simpl; [reflexivity|].
  unfold process_article. rewrite Hsame, IH. reflexivity.
Qed.

Lemma categorize_loop_ext (self self' : MarketSentimentAnalyzer) (net : NewsSource)
    (items : list (string * list string)) :
  (forall text, analyze_sentiment self text = analyze_sentiment self' text) ->
  forall acc, categorize_loop self net items acc = categorize_loop self' net items acc.
Proof.
  intros Hsame. induction items as [|[category assets] items IH]; intros acc; simpl;
    [reflexivity|].
  unfold analyze_category.
  destruct (fetch_category net assets) as [all|]; simpl; [|reflexivity].
  destruct (unique_articles all) as [unique|]; simpl; [|reflexivity].
  rewrite (process_articles_ext self self' unique Hsame).
  destruct (category_stats (process_articles self' unique)); simpl; [apply IH | reflexivity].
Qed.

Lemma collect_asset_stats_ext (self self' : MarketSentimentAnalyzer)
    (all_data : dict string CategoryStats) :
  asset_categories self' = asset_categories self ->
  forall st, collect_asset_stats self all_data st = collect_asset_stats self' all_data st.
Proof.
  intros Hcats.
  assert (forall sample st, scan_articles self sample st = scan_articles self' sample st)
    as Hscan.
  { induction sample as [|a sample IH]; intros st; simpl; [reflexivity|].
    rewrite Hcats. destruct (scan_lists a (values (asset_categories self)) st); simpl;
      [apply IH | reflexivity]. }
  induction all_data as [|[c data] all_data IH]; intros st; simpl; [reflexivity|].
  rewrite Hscan. destruct (scan_articles self' (articles data) st); simpl;
    [apply IH | reflexivity].
Qed.

End ClassifierFacts.

(** The classifier never receives more than 512 characters: two analyzers
    with the same categories whose models agree on every text of at most
    512 characters classify every text alike and generate the same
    report. *)
Theorem classifier_input_at_most_512 {R : Runtime} (self self' : MarketSentimentAnalyzer)
    (pipe pipe' : string -> classifier_outcome) :
  asset_categories self' = asset_categories self ->
  sentiment_pipeline self = Some pipe ->
  sentiment_pipeline self' = Some pipe' ->
  (forall t, (py_len t <= 512)%nat -> pipe t = pipe' t) ->
  (forall text, analyze_sentiment self text = analyze_sentiment self' text) /\
  (forall net now, generate_report self net now = generate_report self' net now).
Proof.
  intros Hcats Hpipe Hpipe' Hshort.
  assert (forall text, analyze_sentiment self text = analyze_sentiment self' text) as Hsame.
  { intros text. unfold analyze_sentiment. rewrite Hpipe, Hpipe'.
    now rewrite (Hshort _ (length_slice_to 512 text)). }
  split; [exact Hsame|]. intros net now.
  unfold generate_report, categorize_and_analyze, identify_top_assets.
  rewrite Hcats, (categorize_loop_ext self self' net _ Hsame).
  destruct (categorize_loop self' net (asset_categories self) []) as [results|]; simpl;
    [|reflexivity].
  now rewrite (collect_asset_stats_ext self self' results Hcats).
Qed.

Lemma classifier_input_at_most_512_witness :
  (forall text,
      analyze_sentiment desk_analyzer text = analyze_sentiment desk_analyzer_short text) /\
  (forall net now,
      generate_report desk_analyzer net now = generate_report desk_analyzer_short net now).
Proof.
  apply (classifier_input_at_most_512 desk_analyzer desk_analyzer_short desk_pipeline
           (fun text => if (py_len text <=? 512)%nat
                        then desk_pipeline text else ClassifierRaises));
    try reflexivity.
  intros t Ht. apply Nat.leb_le in Ht. now rewrite Ht.
Defined.

Lemma Forall_prefix {A : Type} (P : A -> Prop) (n : nat) (l : list A) :
  Forall P l -> Forall P (firstn n l).
Proof.
  revert l. induction n as [|n IH]; intros l Hl; simpl; [constructor|].
  destruct Hl as [|a l Ha Hl]; constructor; [exact Ha | now apply IH].
Qed.

Section ProcessingFacts.
Context {R : Runtime}.

Lemma analyze_sentiment_range (self : MarketSentimentAnalyzer) (text : string)
    (s : Z) (c : float) :
  analyze_sentiment self text = Some (s, c) -> s = 1 \/ s = 0 \/ s = -1.
Proof.
  unfold analyze_sentiment.
  destruct (sentiment_pipeline self) as [pipe|]; [|discriminate].
  destruct (String.eqb text ""); [discriminate|].
  destruct (pipe (slice_to 512 text)) as [|label score].
  - intros H. injection H as <- _. auto.
  - destruct (String.eqb label "POSITIVE"); [intros H; injection H as <- _; auto|].
    destruct (String.eqb label "NEGATIVE"); intros H; injection H as <- _; auto.
Qed.

Lemma process_articles_range (self : MarketSentimentAnalyzer) (l : list RawArticle) :
  Forall (fun r => sentiment r = 1 \/ sentiment r = 0 \/ sentiment r = -1)
    (process_articles self l).
Proof.
  induction l as [|a l IH]; simpl; [constructor|].
  unfold process_article. destruct (source_name a) as [src|]; simpl; [|exact IH].
  destruct (analyze_sentiment self (article_text a)) as [[s c]|] eqn:E; [|exact IH].
  constructor; [|exact IH]. simpl. exact (analyze_sentiment_range _ _ _ _ E).
Qed.

(** Whatever holds of the statistics of every list that [process_articles]
    can return holds of every value that a run stores. *)
Lemma categorize_and_analyze_processed (P : CategoryStats -> Prop)
    (self : MarketSentimentAnalyzer) (net : NewsSource) :
  (forall batch data, category_stats (process_articles self batch) = Ok data -> P data) ->
  forall results, categorize_and_analyze self net = Ok results ->
    Forall (fun kv => P (snd kv)) results.
Proof.
  intros HP. unfold categorize_and_analyze.
  assert (forall items acc results,
             Forall (fun kv => P (snd kv)) acc ->
             categorize_loop self net items acc = Ok results ->
             Forall (fun kv => P (snd kv)) results) as Hloop.
  { induction items as [|[category assets] items IH]; simpl; intros acc results Hacc Hrun.
    - now injection Hrun as <-.
    - unfold analyze_category in Hrun.
      destruct (fetch_category net assets) as [all|]; simpl in Hrun; [|discriminate].
      destruct (unique_articles all) as [unique|]; simpl in Hrun; [|discriminate].
      destruct (category_stats (process_articles self unique)) as [stats|] eqn:E;
        simpl in Hrun; [|discriminate].
      apply (IH _ _ (Forall_values_dict_set P _ _ _ (HP _ _ E) Hacc) Hrun). }
  intros results. apply Hloop. constructor.
Qed.

Lemma category_stats_sample (l : list ClassifiedArticle) (data : CategoryStats) :
  category_stats l = Ok data ->
  articles data = firstn 10 l /\ total_mentions data = Z.of_nat (List.length l) /\
  0 <= positive_count data /\ 0 <= negative_count data /\ 0 <= neutral_count data.
Proof.
  destruct l as [|r l].
  - intros H. injection H as <-. simpl. repeat split; lia.
  - rewrite category_stats_nonempty by discriminate. intros H. injection H as <-.
    cbn [articles total_mentions positive_count negative_count neutral_count].
    unfold count_where. repeat split; lia.
Qed.

End ProcessingFacts.

(** Every article that a run keeps in a category's sample has sentiment
    1, 0 or -1. *)
Theorem sampled_sentiment_is_a_sign {R : Runtime} (self : MarketSentimentAnalyzer)
    (net : NewsSource) (results : dict string CategoryStats) :
  categorize_and_analyze self net = Ok results ->
  forall category data r, In (category, data) results -> In r (articles data) ->
    sentiment r = 1 \/ sentiment r = 0 \/ sentiment r = -1.
Proof.
  intros Hrun category data r Hin Hr.
  pose proof (categorize_and_analyze_processed
                (fun d => Forall (fun r => sentiment r = 1 \/ sentiment r = 0 \/ sentiment r = -1)
                            (articles d)) self net) as Hall.
  assert (Forall (fun kv => Forall (fun r => sentiment r = 1 \/ sentiment r = 0 \/ sentiment r = -1)
                              (articles (snd kv))) results) as Hres.
  { apply Hall; [|exact Hrun]. intros batch d Hd.
    destruct (category_stats_sample _ _ Hd) as (-> & _).
    apply Forall_prefix. apply process_articles_range. }
  rewrite Forall_forall in Hres. specialize (Hres _ Hin). simpl in Hres.
  rewrite Forall_forall in Hres. exact (Hres r Hr).
Qed.

Lemma sampled_sentiment_is_a_sign_witness :
  exists results, categorize_and_analyze desk_analyzer desk_net = Ok results /\
    forall category data r, In (category, data) results -> In r (articles data) ->
      sentiment r = 1 \/ sentiment r = 0 \/ sentiment r = -1.
Proof.
  eexists. split; [reflexivity|].
  apply (sampled_sentiment_is_a_sign desk_analyzer desk_net). reflexivity.
Defined.

(** In every category record that a run stores, the sample holds the first
    ten classified articles: its length is the smaller of 10 and
    [total_mentions], it is empty exactly when [total_mentions] is 0, and
    no count is negative. *)
Theorem sample_is_bounded_prefix {R : Runtime} (self : MarketSentimentAnalyzer)
    (net : NewsSource) (results : dict string CategoryStats) :
  categorize_and_analyze self net = Ok results ->
  forall category data, In (category, data) results ->
    Z.of_nat (List.length (articles data)) = Z.min 10 (total_mentions data) /\
    (articles data = [] <-> total_mentions data = 0) /\
    0 <= positive_count data /\ 0 <= negative_count data /\ 0 <= neutral_count data.
Proof.
  intros Hrun category data Hin.
  pose proof (categorize_and_analyze_values
                (fun d => Z.of_nat (List.length (articles d)) = Z.min 10 (total_mentions d) /\
                          (articles d = [] <-> total_mentions d = 0) /\
                          0 <= positive_count d /\ 0 <= negative_count d /\
                          0 <= neutral_count d) self net) as Hall.
  assert (Forall (fun kv =>
            Z.of_nat (List.length (articles (snd kv))) = Z.min 10 (total_mentions (snd kv)) /\
            (articles (snd kv) = [] <-> total_mentions (snd kv) = 0) /\
            0 <= positive_count (snd kv) /\ 0 <= negative_count (snd kv) /\
            0 <= neutral_count (snd kv)) results) as Hres.
  { apply Hall; [|exact Hrun]. intros l d Hd.
    destruct (category_stats_sample _ _ Hd) as (-> & -> & Hp & Hn & Hu).
    split; [rewrite length_firstn; lia|]. split; [|auto].
    destruct l as [|r l]; simpl; split; try reflexivity; try discriminate; lia. }
  rewrite Forall_forall in Hres. exact (Hres _ Hin).
Qed.

Lemma sample_is_bounded_prefix_witness :
  exists results, categorize_and_analyze desk_analyzer desk_net = Ok results /\
    forall category data, In (category, data) results ->
      Z.of_nat (List.length (articles data)) = Z.min 10 (total_mentions data) /\
      (articles data = [] <-> total_mentions data = 0) /\
      0 <= positive_count data /\ 0 <= negative_count data /\ 0 <= neutral_count data.
Proof.
  eexists. split; [reflexivity|].
  apply (sample_is_bounded_prefix desk_analyzer desk_net). reflexivity.
Defined.

Lemma analyze_sentiment_loaded {R : Runtime} (self : MarketSentimentAnalyzer)
    (pipe : string -> classifier_outcome) (a : RawArticle) :
  sentiment_pipeline self = Some pipe ->
  exists s c, analyze_sentiment self (article_text a) = Some (s, c).
Proof.
  intros Hpipe. unfold analyze_sentiment. rewrite Hpipe, article_text_nonempty.
  destruct (pipe (slice_to 512 (article_text a))) as [|label score]; [now eexists; eexists|].
  destruct (String.eqb label "POSITIVE"); [now eexists; eexists|].
  destruct (String.eqb label "NEGATIVE"); now eexists; eexists.
Qed.

(** Articles whose ['source'] is [null] are invisible to the
    classification: dropping them beforehand changes nothing.  With a
    loaded model every other article is classified, in batch order, under
    its own title and url. *)
Theorem null_source_articles_are_dropped {R : Runtime} (self : MarketSentimentAnalyzer)
    (l : list RawArticle) :
  process_articles self l = process_articles self (filter source_present l) /\
  (forall pipe, sentiment_pipeline self = Some pipe ->
     map (fun r => (title r, url r)) (process_articles self l)
     = map (fun a => (get_default (raw_title a) (PyStr ""),
                      get_default (raw_url a) (PyStr "")))
         (filter source_present l)).
Proof.
  split.
  - induction l as [|a l IH]; [reflexivity|].
    cbn [filter]. unfold source_present at 1.
    cbn [process_articles]. unfold process_article at 1, source_name at 1.
    destruct (raw_source a) as [| |name] eqn:Hsrc.
    + cbn [process_articles]. unfold process_article, source_name. rewrite Hsrc.
      cbn [bind]. destruct (analyze_sentiment self (article_text a)) as [[s c]|];
        now rewrite IH.
    + exact IH.
    + cbn [process_articles]. unfold process_article, source_name. rewrite Hsrc.
      cbn [bind]. destruct (analyze_sentiment self (article_text a)) as [[s c]|];
        now rewrite IH.
  - intros pipe Hpipe. induction l as [|a l IH]; [reflexivity|].
    cbn [filter process_articles]. unfold source_present at 1.
    unfold process_article, source_name.
    destruct (analyze_sentiment_loaded self pipe a Hpipe) as (s & c & Hsc).
    destruct (raw_source a) as [| |name]; cbn [bind]; try rewrite Hsc;
      cbn [map title url]; now rewrite ?IH.
Qed.

Section ReportFacts.
Context {R : Runtime}.

Lemma categorize_loop_keys_exact (self : MarketSentimentAnalyzer) (net : NewsSource)
    (items : list (string * list string)) :
  forall acc results,
    NoDup (keys acc ++ keys items) ->
    categorize_loop self net items acc = Ok results ->
    keys results = (keys acc ++ keys items)%list.
Proof.
  unfold keys. induction items as [|[category assets] items IH]; intros acc results Hnd Hrun.
  - simpl in *. injection Hrun as <-. now rewrite app_nil_r.
  - cbn [categorize_loop] in Hrun. cbn [map fst] in *.
    destruct (analyze_category self net assets) as [stats|]; cbn [bind] in Hrun;
      [|discriminate].
    assert (dict_get String.eqb category acc = None) as Hfree.
    { apply (dict_get_none_keys _ _ String.eqb String.eqb_eq). intros Hin.
      apply (NoDup_remove_2 _ _ _ Hnd). apply in_or_app. now left. }
    rewrite (dict_set_absent String.eqb category stats acc Hfree) in Hrun.
    assert (NoDup (map fst (acc ++ [(category, stats)]) ++ map fst items)) as Hnd'.
    { rewrite map_app, <- app_assoc. exact Hnd. }
    rewrite (IH _ _ Hnd' Hrun). now rewrite map_app, <- app_assoc.
Qed.

Lemma keys_map_values {V W : Type} (f : V -> W) (d : dict string V) :
  keys (map (fun item => (fst item, f (snd item))) d) = keys d.
Proof.
  unfold keys. rewrite map_map. apply map_ext. reflexivity.
Qed.

End ReportFacts.

Lemma desk_report_run :
  generate_report desk_analyzer desk_net "2024-05-01T09:00:00" = Ok desk_report.
Proof. vm_cast_no_check (eq_refl (Ok desk_report)). Qed.

(** In every generated report, [articles_count] of a category's summary
    equals its [total_mentions], and the summary carries the percentages
    and the average confidence of the category's detailed record. *)
Theorem articles_count_is_total_mentions {R : Runtime} (self : MarketSentimentAnalyzer)
    (net : NewsSource) (now : string) (report : Report) :
  generate_report self net now = Ok report ->
  forall category summary, In (category, summary) (market_sentiment report) ->
    articles_count summary = summary_total_mentions summary /\
    exists data, In (category, data) (detailed_category_data report) /\
      summary_positive summary = positive_pct data /\
      summary_negative summary = negative_pct data /\
      summary_neutral summary = neutral_pct data /\
      summary_total_mentions summary = total_mentions data /\
      summary_avg_confidence summary = avg_confidence data.
Proof.
  intros Hgen category summary Hin. unfold generate_report in Hgen.
  destruct (categorize_and_analyze self net) as [results|] eqn:Hrun; simpl in Hgen;
    [|discriminate].
  destruct (identify_top_assets self results) as [top|]; simpl in Hgen; [|discriminate].
  injection Hgen as <-. cbn [market_sentiment detailed_category_data] in *.
  apply in_map_iff in Hin. destruct Hin as ([c data] & Heq & Hin).
  simpl in Heq. injection Heq as <- <-.
  pose proof (categorize_and_analyze_values
                (fun d => positive_count d + negative_count d + neutral_count d
                          = total_mentions d)
                self net category_stats_partition results Hrun) as Hall.
  rewrite Forall_forall in Hall. specialize (Hall _ Hin). simpl in Hall.
  split; [exact Hall|]. exists data. repeat split. exact Hin.
Qed.

Lemma articles_count_is_total_mentions_witness :
  generate_report desk_analyzer desk_net "2024-05-01T09:00:00" = Ok desk_report /\
  forall category summary, In (category, summary) (market_sentiment desk_report) ->
    articles_count summary = summary_total_mentions summary /\
    exists data, In (category, data) (detailed_category_data desk_report) /\
      summary_positive summary = positive_pct data /\
      summary_negative summary = negative_pct data /\
      summary_neutral summary = neutral_pct data /\
      summary_total_mentions summary = total_mentions data /\
      summary_avg_confidence summary = avg_confidence data.
Proof.
  split; [exact desk_report_run|].
  apply (articles_count_is_total_mentions desk_analyzer desk_net "2024-05-01T09:00:00"
           desk_report desk_report_run).
Defined.

(** When the configured category names are pairwise distinct, both
    mappings of a generated report list exactly the configured names, in
    configuration order. *)
Theorem report_keys_follow_configuration {R : Runtime} (self : MarketSentimentAnalyzer)
    (net : NewsSource) (now : string) (report : Report) :
  NoDup (keys (asset_categories self)) ->
  generate_report self net now = Ok report ->
  keys (market_sentiment report) = keys (asset_categories self) /\
  keys (detailed_category_data report) = keys (asset_categories self).
Proof.
  intros Hnd Hgen. unfold generate_report in Hgen.
  destruct (categorize_and_analyze self net) as [results|] eqn:Hrun; simpl in Hgen;
    [|discriminate].
  destruct (identify_top_assets self results) as [top|]; simpl in Hgen; [|discriminate].
  injection Hgen as <-. cbn [market_sentiment detailed_category_data].
  rewrite keys_map_values.
  rewrite (categorize_loop_keys_exact self net _ [] results Hnd Hrun). auto.
Qed.

Lemma configured_report_run :
  generate_report raising_analyzer desk_net "2024-05-01T09:00:00" = Ok configured_report.
Proof. vm_cast_no_check (eq_refl (Ok configured_report)). Qed.

(** The five configured categories, in the order of [__init__]. *)
Lemma report_keys_follow_configuration_witness :
  generate_report raising_analyzer desk_net "2024-05-01T09:00:00" = Ok configured_report /\
  keys (asset_categories raising_analyzer)
  = ["techs"; "criptos"; "gold"; "silver"; "energias_renovaveis"] /\
  keys (market_sentiment configured_report) = keys (asset_categories raising_analyzer) /\
  keys (detailed_category_data configured_report) = keys (asset_categories raising_analyzer).
Proof.
  split; [exact configured_report_run|]. split; [reflexivity|].
  apply (report_keys_follow_configuration raising_analyzer desk_net "2024-05-01T09:00:00"
           configured_report).
  - repeat constructor; simpl; intuition discriminate.
  - exact configured_report_run.
Defined.

(* ================================================================== *)
(** ** More on the asset ranking *)
(* ================================================================== *)

Section RankingFacts.
Context {R : Runtime}.

Lemma record_mention_bump (kw : string) (s : Z) (d : dict string AssetAcc) :
  record_mention kw s d = dict_set String.eqb kw (bump (acc_of kw d) s) d.
Proof. reflexivity. Qed.

Lemma scan_articles_app (self : MarketSentimentAnalyzer) (l1 l2 : list ClassifiedArticle) :
  forall st,
    scan_articles self (l1 ++ l2) st = bind (scan_articles self l1 st) (scan_articles self l2).
Proof.
  induction l1 as [|a l1 IH]; intros st; simpl; [reflexivity|].
  destruct (scan_lists a (values (asset_categories self)) st); simpl;
    [apply IH | reflexivity].
Qed.

(** The loop over categories is one scan over all the samples in a row. *)
Lemma collect_asset_stats_scan (self : MarketSentimentAnalyzer)
    (all_data : dict string CategoryStats) :
  forall st, collect_asset_stats self all_data st = scan_articles self (sampled all_data) st.
Proof.
  unfold sampled. induction all_data as [|[c data] all_data IH]; intros st; simpl;
    [reflexivity|].
  rewrite scan_articles_app.
  destruct (scan_articles self (articles data) st); simpl; [apply IH | reflexivity].
Qed.

Lemma scan_assets_ok (a : ClassifiedArticle) (t : string) (ks : list string) :
  title a = PyStr t -> forall st, exists st', scan_assets a ks st = Ok st'.
Proof.
  intros Ht. induction ks as [|k ks IH]; intros st; simpl; [now exists st|].
  unfold mentions_asset. rewrite Ht. simpl. apply IH.
Qed.

Lemma scan_articles_ok (self : MarketSentimentAnalyzer) (sample : list ClassifiedArticle) :
  Forall (fun a => title a <> PyNone) sample ->
  forall st, exists st', scan_articles self sample st = Ok st'.
Proof.
  induction 1 as [|a sample Ha _ IH]; intros st; simpl; [now exists st|].
  rewrite scan_lists_concat.
  destruct (title a) as [|t] eqn:Ht; [contradiction|].
  destruct (scan_assets_ok a t (List.concat (values (asset_categories self))) Ht st)
    as [st1 Hst1].
  rewrite Hst1. simpl. apply IH.
Qed.

Lemma scan_articles_null_title (self : MarketSentimentAnalyzer)
    (sample : list ClassifiedArticle) :
  all_keywords self <> [] ->
  Exists (fun a => title a = PyNone) sample ->
  forall st, scan_articles self sample st = Raise AttributeError.
Proof.
  intros Hkw. induction sample as [|a sample IH]; intros Hex st; [inversion Hex|].
  simpl. rewrite scan_lists_concat. fold (all_keywords self).
  destruct (title a) as [|t] eqn:Ht.
  - destruct (all_keywords self) as [|k ks]; [contradiction|].
    simpl. unfold mentions_asset. now rewrite Ht.
  - destruct (scan_assets_ok a t (all_keywords self) Ht st) as [st1 Hst1].
    rewrite Hst1. simpl. apply IH.
    inversion Hex; subst; [congruence | assumption].
Qed.

(** [assets_list_of] never divides by zero: it returns the entries with a
    positive number of mentions, converted one by one. *)
Lemma assets_list_of_spec (items : dict string AssetAcc) :
  assets_list_of items
  = Ok (map to_stat (filter (fun item => acc_mentions (snd item) >? 0) items)).
Proof.
  induction items as [|[name stats] items IH]; simpl; [reflexivity|].
  destruct (Z.gtb_spec (acc_mentions stats) 0) as [Hpos|Hle]; [|exact IH].
  unfold py_truediv. destruct (Z.eqb_spec (acc_mentions stats) 0); [lia|].
  simpl. rewrite IH. reflexivity.
Qed.

Lemma insert_sorted_perm {A : Type} (lt : A -> A -> bool) (x : A) (l : list A) :
  Permutation (insert_sorted lt x l) (x :: l).
Proof.
  induction l as [|y l IH]; simpl; [reflexivity|].
  destruct (lt x y); [reflexivity|].
  rewrite IH. apply perm_swap.
Qed.

Lemma sorted_by_perm {A : Type} (key : A -> pynum float) (reverse : bool) (xs : list A) :
  Permutation (sorted_by key reverse xs) xs.
Proof.
  unfold sorted_by.
  set (lt := fun x y => if reverse then num_ltb (key y) (key x) else num_ltb (key x) (key y)).
  assert (forall acc, Permutation (fold_left (fun acc x => insert_sorted lt x acc) xs acc)
                        (acc ++ xs)) as H.
  { induction xs as [|x xs IH]; intros acc; simpl.
    - now rewrite app_nil_r.
    - rewrite IH, insert_sorted_perm. apply Permutation_middle. }
  exact (H []).
Qed.

(** What [identify_top_assets] returns, given the accumulated statistics. *)
Lemma identify_top_assets_ok (self : MarketSentimentAnalyzer)
    (all_data : dict string CategoryStats) (asset_stats : dict string AssetAcc) :
  scan_articles self (sampled all_data) [] = Ok asset_stats ->
  let assets_list :=
    map to_stat (filter (fun item => acc_mentions (snd item) >? 0) asset_stats) in
  identify_top_assets self all_data =
  Ok {| most_talked := firstn 10 (sorted_by (fun x => PInt (mentions x)) true assets_list);
        least_talked := firstn 10 (sorted_by (fun x => PInt (mentions x)) false assets_list);
        most_positive := firstn 10 (sorted_by sentiment_avg true assets_list);
        most_negative := firstn 10 (sorted_by sentiment_avg false assets_list) |}.
Proof.
  intros Hscan. unfold identify_top_assets.
  rewrite collect_asset_stats_scan, Hscan. cbn [bind].
  rewrite assets_list_of_spec. reflexivity.
Qed.

End RankingFacts.

(** [identify_top_assets] returns whenever every sampled title is a
    string; in particular the average never divides by zero.  When some
    sampled title is [None] and at least one keyword is configured, it
    raises [AttributeError]. *)
Theorem ranking_fails_only_on_null_title {R : Runtime} (self : MarketSentimentAnalyzer)
    (all_data : dict string CategoryStats) :
  (Forall (fun a => title a <> PyNone) (sampled all_data) ->
   exists top, identify_top_assets self all_data = Ok top) /\
  (all_keywords self <> [] ->
   Exists (fun a => title a = PyNone) (sampled all_data) ->
   identify_top_assets self all_data = Raise AttributeError).
Proof.
  split.
  - intros Htitles.
    destruct (scan_articles_ok self (sampled all_data) Htitles []) as [st Hst].
    eexists. exact (identify_top_assets_ok self all_data st Hst).
  - intros Hkw Hex. unfold identify_top_assets.
    now rewrite collect_asset_stats_scan, (scan_articles_null_title self _ Hkw Hex).
Qed.

(** The ranking reads nothing but the sampled articles: two results with
    the same samples in a row give the same ranking, whatever their counts,
    percentages and category names are. *)
Theorem ranking_depends_on_samples_only {R : Runtime} (self : MarketSentimentAnalyzer)
    (d1 d2 : dict string CategoryStats) :
  sampled d1 = sampled d2 ->
  identify_top_assets self d1 = identify_top_assets self d2.
Proof.
  intros Hsame. unfold identify_top_assets.
  now rewrite !collect_asset_stats_scan, Hsame.
Qed.

Lemma ranking_depends_on_samples_only_witness :
  identify_top_assets modelless_analyzer surge_data
  = identify_top_assets modelless_analyzer
      [("techs", empty_stats);
       ("anything", {| positive_count := 7; positive_pct := PInt 0;
                       negative_count := 0; negative_pct := PInt 0;
                       neutral_count := 0; neutral_pct := PInt 0;
                       total_mentions := 0; avg_confidence := PInt 0;
                       articles := [surge] |})].
Proof.
  apply (ranking_depends_on_samples_only modelless_analyzer). reflexivity.
Defined.

Lemma Ok_inj {A : Type} (a b : A) : Ok a = Ok b -> a = b.
Proof. intros H. now injection H. Qed.

Section RankingInvariants.
Context {R : Runtime}.

Lemma dict_get_in (k : string) (v : AssetAcc) (d : dict string AssetAcc) :
  dict_get String.eqb k d = Some v -> In (k, v) d.
Proof.
  induction d as [|[k' v'] d IH]; simpl; [discriminate|].
  destruct (String.eqb_spec k k') as [->|Hne].
  - intros H. injection H as ->. now left.
  - intros H. right. exact (IH H).
Qed.

Lemma Forall_dict_set_entry (P : string * AssetAcc -> Prop) (k : string) (v : AssetAcc)
    (d : dict string AssetAcc) :
  P (k, v) -> Forall P d -> Forall P (dict_set String.eqb k v d).
Proof.
  intros Hv. induction 1 as [|[k' v'] d Hkv Hd IH]; simpl.
  - repeat constructor. exact Hv.
  - destruct (String.eqb_spec k k') as [->|Hne]; constructor; assumption.
Qed.

(** A property of the entries that every attribution preserves holds of
    every entry after the scan. *)
Lemma scan_articles_invariant (I : string -> AssetAcc -> Prop)
    (S : ClassifiedArticle -> Prop) (self : MarketSentimentAnalyzer) :
  (forall a kw acc, S a -> In kw (all_keywords self) ->
     acc = acc_zero \/ I kw acc -> I kw (bump acc (sentiment a))) ->
  forall sample, Forall S sample ->
  forall st st', Forall (fun kv => I (fst kv) (snd kv)) st ->
    scan_articles self sample st = Ok st' ->
    Forall (fun kv => I (fst kv) (snd kv)) st'.
Proof.
  intros Hstep.
  assert (forall a, S a -> forall ks, incl ks (all_keywords self) ->
          forall st st', Forall (fun kv => I (fst kv) (snd kv)) st ->
            scan_assets a ks st = Ok st' ->
            Forall (fun kv => I (fst kv) (snd kv)) st') as Hassets.
  { intros a Ha. induction ks as [|k ks IH]; intros Hincl st st' Hst Hrun; simpl in Hrun.
    - now injection Hrun as <-.
    - destruct (mentions_asset k a) as [hit|]; simpl in Hrun; [|discriminate].
      refine (IH (fun x Hx => Hincl x (or_intror Hx)) _ _ _ Hrun).
      destruct hit; [|exact Hst].
      rewrite record_mention_bump.
      apply (Forall_dict_set_entry (fun kv => I (fst kv) (snd kv))); [|exact Hst].
      simpl. apply (Hstep a k _ Ha (Hincl k (or_introl eq_refl))).
      unfold acc_of. destruct (dict_get String.eqb k st) as [v|] eqn:E; [|now left].
      right. apply dict_get_in in E. rewrite Forall_forall in Hst. exact (Hst _ E). }
  induction 1 as [|a sample Ha _ IH]; intros st st' Hst Hrun; simpl in Hrun.
  - now injection Hrun as <-.
  - rewrite scan_lists_concat in Hrun. fold (all_keywords self) in Hrun.
    destruct (scan_assets a (all_keywords self) st) as [st1|] eqn:E; simpl in Hrun;
      [|discriminate].
    exact (IH _ _ (Hassets a Ha _ (incl_refl _) _ _ Hst E) Hrun).
Qed.

Lemma in_prefix {A : Type} (n : nat) (l : list A) (x : A) : In x (firstn n l) -> In x l.
Proof.
  intros H. rewrite <- (firstn_skipn n l). apply in_or_app. now left.
Qed.

(** Every ranked entry is the conversion of an accumulated item with a
    positive number of mentions. *)
Lemma ranked_from_stats (self : MarketSentimentAnalyzer)
    (all_data : dict string CategoryStats) (st : dict string AssetAcc) (top : TopAssets) :
  scan_articles self (sampled all_data) [] = Ok st ->
  identify_top_assets self all_data = Ok top ->
  forall x, In x (ranked top) ->
    exists item, In item st /\ 0 < acc_mentions (snd item) /\ x = to_stat item.
Proof.
  intros Hscan Htop x Hx.
  rewrite (identify_top_assets_ok self all_data st Hscan) in Htop.
  apply Ok_inj in Htop. subst top. unfold ranked in Hx.
  cbn [most_talked least_talked most_positive most_negative] in Hx.
  assert (In x (map to_stat (filter (fun item => acc_mentions (snd item) >? 0) st))) as Hin.
  { repeat (apply in_app_or in Hx; destruct Hx as [Hx|Hx]);
      apply in_prefix in Hx;
      exact (Permutation_in _ (sorted_by_perm _ _ _) Hx). }
  apply in_map_iff in Hin. destruct Hin as (item & <- & Hitem).
  apply filter_In in Hitem. destruct Hitem as [Hitem Hpos].
  exists item. repeat split; [exact Hitem|]. apply Z.gtb_lt in Hpos. lia.
Qed.

Lemma identify_top_assets_scanned (self : MarketSentimentAnalyzer)
    (all_data : dict string CategoryStats) (top : TopAssets) :
  identify_top_assets self all_data = Ok top ->
  exists st, scan_articles self (sampled all_data) [] = Ok st.
Proof.
  unfold identify_top_assets. rewrite collect_asset_stats_scan.
  destruct (scan_articles self (sampled all_data) []) as [st|]; [|discriminate].
  intros _. now exists st.
Qed.

End RankingInvariants.

(** Every entry of the four ranking lists names a configured keyword, has
    at least one mention, and its positive and negative counts are
    non-negative and together at most its mentions.  Each list has at most
    10 entries and the four lists have the same length. *)
Theorem ranked_entries_are_mentioned_keywords {R : Runtime}
    (self : MarketSentimentAnalyzer) (all_data : dict string CategoryStats)
    (top : TopAssets) :
  identify_top_assets self all_data = Ok top ->
  (forall x, In x (ranked top) ->
     In (asset x) (all_keywords self) /\ 1 <= mentions x /\
     0 <= positive x /\ 0 <= negative x /\ positive x + negative x <= mentions x) /\
  (List.length (most_talked top) <= 10)%nat /\
  List.length (least_talked top) = List.length (most_talked top) /\
  List.length (most_positive top) = List.length (most_talked top) /\
  List.length (most_negative top) = List.length (most_talked top).
Proof.
  intros Htop. destruct (identify_top_assets_scanned self all_data top Htop) as [st Hscan].
  split.
  - intros x Hx.
    destruct (ranked_from_stats self all_data st top Hscan Htop x Hx)
      as ([kw acc] & Hitem & Hpos & ->).
    pose proof (scan_articles_invariant
                  (fun kw acc => In kw (all_keywords self) /\ 0 <= acc_mentions acc /\
                                 0 <= acc_positive acc /\ 0 <= acc_negative acc /\
                                 acc_positive acc + acc_negative acc <= acc_mentions acc)
                  (fun _ => True) self) as Hinv.
    assert (Forall (fun kv => In (fst kv) (all_keywords self) /\ 0 <= acc_mentions (snd kv) /\
                              0 <= acc_positive (snd kv) /\ 0 <= acc_negative (snd kv) /\
                              acc_positive (snd kv) + acc_negative (snd kv)
                              <= acc_mentions (snd kv)) st) as Hall.
    { refine (Hinv _ (sampled all_data) _ [] st (Forall_nil _) Hscan).
      - intros a k0 acc0 _ Hkw [->|(_ & Hm & Hp & Hn & Hsum)]; unfold bump; simpl;
          destruct (Z.gtb_spec (sentiment a) 0), (Z.ltb_spec (sentiment a) 0);
          repeat split; try assumption; lia.
      - apply Forall_forall. intros; exact Logic.I. }
    rewrite Forall_forall in Hall. specialize (Hall _ Hitem). simpl in *.
    destruct Hall as (Hkw & Hm & Hp & Hn & Hsum). repeat split; try assumption; lia.
  - rewrite (identify_top_assets_ok self all_data st Hscan) in Htop.
    apply Ok_inj in Htop. subst top.
    cbn [most_talked least_talked most_positive most_negative].
    rewrite !length_firstn, !(Permutation_length (sorted_by_perm _ _ _)).
    repeat split; lia.
Qed.

Lemma surge_top_run : identify_top_assets modelless_analyzer surge_data = Ok surge_top.
Proof. vm_cast_no_check (eq_refl (Ok surge_top)). Qed.

Lemma ranked_entries_are_mentioned_keywords_witness :
  (forall x, In x (ranked surge_top) ->
     In (asset x) (all_keywords modelless_analyzer) /\ 1 <= mentions x /\
     0 <= positive x /\ 0 <= negative x /\ positive x + negative x <= mentions x) /\
  (List.length (most_talked surge_top) <= 10)%nat /\
  List.length (least_talked surge_top) = List.length (most_talked surge_top) /\
  List.length (most_positive surge_top) = List.length (most_talked surge_top) /\
  List.length (most_negative surge_top) = List.length (most_talked surge_top).
Proof.
  apply (ranked_entries_are_mentioned_keywords modelless_analyzer surge_data surge_top).
  exact surge_top_run.
Defined.

Section RunRankingFacts.
Context {R : Runtime}.

Lemma run_samples_are_signs (self : MarketSentimentAnalyzer) (net : NewsSource)
    (results : dict string CategoryStats) :
  categorize_and_analyze self net = Ok results ->
  Forall (fun r => sentiment r = 1 \/ sentiment r = 0 \/ sentiment r = -1) (sampled results).
Proof.
  intros Hrun. unfold sampled. apply Forall_concat. apply Forall_map.
  apply (categorize_and_analyze_processed
           (fun d => Forall (fun r => sentiment r = 1 \/ sentiment r = 0 \/ sentiment r = -1)
                       (articles d)) self net); [|exact Hrun].
  intros batch d Hd. destruct (category_stats_sample _ _ Hd) as (-> & _).
  apply Forall_prefix. apply process_articles_range.
Qed.

End RunRankingFacts.

(** In a generated report, the sentiment score behind every ranked entry
    is its positive count minus its negative count, so [sentiment_avg] is
    [(positive - negative) / mentions] rounded to 3 decimals. *)
Theorem sentiment_avg_from_counts {R : Runtime} (self : MarketSentimentAnalyzer)
    (net : NewsSource) (now : string) (report : Report) :
  generate_report self net now = Ok report ->
  forall x, In x (ranked (top_assets report)) ->
    sentiment_avg x = PFloat (round_nd (fdiv (positive x - negative x) (mentions x)) 3).
Proof.
  intros Hgen x Hx. unfold generate_report in Hgen.
  destruct (categorize_and_analyze self net) as [results|] eqn:Hrun; simpl in Hgen;
    [|discriminate].
  destruct (identify_top_assets self results) as [top|] eqn:Htop; simpl in Hgen;
    [|discriminate].
  apply Ok_inj in Hgen. subst report. cbn [top_assets] in Hx.
  destruct (identify_top_assets_scanned self results top Htop) as [st Hscan].
  destruct (ranked_from_stats self results st top Hscan Htop x Hx)
    as ([kw acc] & Hitem & Hpos & ->).
  assert (Forall (fun kv => acc_sentiment_score (snd kv)
                            = acc_positive (snd kv) - acc_negative (snd kv)) st) as Hall.
  { refine (scan_articles_invariant
              (fun _ acc => acc_sentiment_score acc = acc_positive acc - acc_negative acc)
              (fun r => sentiment r = 1 \/ sentiment r = 0 \/ sentiment r = -1)
              self _ (sampled results) (run_samples_are_signs self net results Hrun)
              [] st (Forall_nil _) Hscan).
    intros a k0 acc0 Hs _ [->|Hbal]; unfold bump; simpl;
      destruct Hs as [Hs|[Hs|Hs]]; rewrite Hs; simpl; lia. }
  rewrite Forall_forall in Hall. specialize (Hall _ Hitem). simpl in Hall.
  unfold to_stat. simpl. now rewrite Hall.
Qed.

Lemma sentiment_avg_from_counts_witness :
  generate_report desk_analyzer desk_net "2024-05-01T09:00:00" = Ok desk_report /\
  forall x, In x (ranked (top_assets desk_report)) ->
    sentiment_avg x = PFloat (round_nd (fdiv (positive x - negative x) (mentions x)) 3).
Proof.
  split; [exact desk_report_run|].
  apply (sentiment_avg_from_counts desk_analyzer desk_net "2024-05-01T09:00:00" desk_report
           desk_report_run).
Defined.

Section SortingFacts.
Variable A : Type.
Variable key : A -> Z.
Variable lt : A -> A -> bool.
Hypothesis lt_key : forall x y, lt x y = (key x <? key y).

Lemma insert_sorted_sorted (x : A) (l : list A) :
  StronglySorted (fun a b => key a <= key b) l ->
  StronglySorted (fun a b => key a <= key b) (insert_sorted lt x l).
Proof.
  induction 1 as [|y l Hsorted IH Hy]; simpl.
  - repeat constructor.
  - rewrite lt_key. destruct (Z.ltb_spec (key x) (key y)) as [Hlt|Hge].
    + constructor; [now constructor|]. constructor; [lia|].
      eapply Forall_impl; [|exact Hy]. simpl. intros z Hz. lia.
    + constructor; [exact IH|].
      apply (Permutation_Forall (Permutation_sym (insert_sorted_perm lt x l))).
      constructor; [lia | exact Hy].
Qed.

Lemma fold_insert_sorted (xs : list A) :
  forall acc, StronglySorted (fun a b => key a <= key b) acc ->
    StronglySorted (fun a b => key a <= key b)
      (fold_left (fun acc x => insert_sorted lt x acc) xs acc).
Proof.
  induction xs as [|x xs IH]; intros acc Hacc; simpl; [exact Hacc|].
  apply IH. now apply insert_sorted_sorted.
Qed.

Lemma sorted_prefix (n : nat) (l : list A) :
  StronglySorted (fun a b => key a <= key b) l ->
  StronglySorted (fun a b => key a <= key b) (firstn n l).
Proof.
  revert l. induction n as [|n IH]; intros l Hl; simpl; [constructor|].
  destruct Hl as [|a l Hl Ha]; constructor; [now apply IH | now apply Forall_prefix].
Qed.

End SortingFacts.

(** When [<] on integers is the integer order, [most_talked] lists its
    entries by decreasing number of mentions and [least_talked] by
    increasing number of mentions. *)
Theorem talked_lists_are_ordered {R : Runtime} (self : MarketSentimentAnalyzer)
    (all_data : dict string CategoryStats) (top : TopAssets) :
  (forall a b, num_ltb (PInt a) (PInt b) = (a <? b)) ->
  identify_top_assets self all_data = Ok top ->
  StronglySorted (fun x y => mentions y <= mentions x) (most_talked top) /\
  StronglySorted (fun x y => mentions x <= mentions y) (least_talked top).
Proof.
  intros Hint Htop.
  destruct (identify_top_assets_scanned self all_data top Htop) as [st Hscan].
  rewrite (identify_top_assets_ok self all_data st Hscan) in Htop.
  apply Ok_inj in Htop. subst top. cbn [most_talked least_talked]. split.
  - assert (StronglySorted (fun x y => - mentions x <= - mentions y)
              (firstn 10 (sorted_by (fun x => PInt (mentions x)) true
                 (map to_stat (filter (fun item => acc_mentions (snd item) >? 0) st)))))
      as Hsorted.
    { apply sorted_prefix. unfold sorted_by.
      apply (fold_insert_sorted AssetStat (fun x => - mentions x)).
      - intros x y. rewrite Hint.
        destruct (Z.ltb_spec (mentions y) (mentions x)),
          (Z.ltb_spec (- mentions x) (- mentions y)); (reflexivity || lia).
      - constructor. }
    clear - Hsorted. induction Hsorted as [|a l Hl IH Ha]; constructor; [exact IH|].
    eapply Forall_impl; [|exact Ha]. simpl. intros z Hz. lia.
  - apply sorted_prefix. unfold sorted_by.
    apply (fold_insert_sorted AssetStat mentions).
    + intros x y. apply Hint.
    + constructor.
Qed.

Lemma exact_runtime_int_order (a b : Z) :
  num_ltb (Runtime := ExactRuntime.runtime) (PInt a) (PInt b) = (a <? b).
Proof.
  simpl. unfold ExactRuntime.qltb, Qcompare. simpl. rewrite !Z.mul_1_r.
  unfold Z.ltb. reflexivity.
Qed.

Lemma mixed_top_run : identify_top_assets modelless_analyzer mixed_data = Ok mixed_top.
Proof. vm_cast_no_check (eq_refl (Ok mixed_top)). Qed.

(** A sample met in the order Tesla, Bitcoin, gold, with 1, 2 and 1
    mentions: the two lists come out in different orders. *)
Lemma talked_lists_are_ordered_witness :
  map (fun x => (asset x, mentions x)) (most_talked mixed_top)
  = [("Bitcoin", 2); ("Tesla", 1); ("gold", 1)] /\
  map (fun x => (asset x, mentions x)) (least_talked mixed_top)
  = [("Tesla", 1); ("gold", 1); ("Bitcoin", 2)] /\
  StronglySorted (fun x y => mentions y <= mentions x) (most_talked mixed_top) /\
  StronglySorted (fun x y => mentions x <= mentions y) (least_talked mixed_top).
Proof.
  split; [reflexivity|]. split; [reflexivity|].
  apply (talked_lists_are_ordered modelless_analyzer mixed_data mixed_top).
  - exact exact_runtime_int_order.
  - exact mixed_top_run.
Defined.

(* ================================================================== *)
(** ** Runs that complete *)
(* ================================================================== *)

Section CompletionFacts.
Context {R : Runtime}.

Lemma fetch_category_forall (P : RawArticle -> Prop) (net : NewsSource)
    (assets : list string) :
  (forall kw, exists arts, fetch_news net kw = Ok arts /\ Forall P arts) ->
  exists all, fetch_category net assets = Ok all /\ Forall P all.
Proof.
  intros Hnet. induction assets as [|k assets (more & Hmore & HP)]; simpl.
  - exists []. now split.
  - destruct (Hnet k) as (arts & Harts & Hk). rewrite Harts, Hmore. simpl.
    exists (arts ++ more)%list. split; [reflexivity|]. apply Forall_app. now split.
Qed.

Lemma process_articles_titles (self : MarketSentimentAnalyzer) (l : list RawArticle) :
  Forall (fun a => raw_title a <> Some PyNone) l ->
  Forall (fun r => title r <> PyNone) (process_articles self l).
Proof.
  induction 1 as [|a l Ha _ IH]; simpl; [constructor|].
  unfold process_article. destruct (source_name a) as [src|]; simpl; [|exact IH].
  destruct (analyze_sentiment self (article_text a)) as [[s c]|]; [|exact IH].
  constructor; [|exact IH]. simpl.
  destruct (raw_title a) as [[|t]|]; simpl; congruence.
Qed.

Lemma category_stats_returns (l : list ClassifiedArticle) :
  exists data, category_stats l = Ok data /\ articles data = firstn 10 l.
Proof.
  destruct l as [|r l].
  - now exists empty_stats.
  - eexists. split; [apply category_stats_nonempty; discriminate | reflexivity].
Qed.

Lemma analyze_category_well_formed (self : MarketSentimentAnalyzer) (net : NewsSource)
    (assets : list string) :
  (forall kw, exists arts, fetch_news net kw = Ok arts /\ Forall well_formed arts) ->
  exists data, analyze_category self net assets = Ok data /\
               Forall (fun r => title r <> PyNone) (articles data).
Proof.
  intros Hnet. unfold analyze_category.
  destruct (fetch_category_forall well_formed net assets Hnet) as (all & Hall & Hwf).
  rewrite Hall. cbn [bind].
  assert (Forall (fun a => raw_url a <> None) all) as Hkeys
    by (eapply Forall_impl; [|exact Hwf]; now intros a [Hu _]).
  destruct (url_dict_total all Hkeys []) as [d Hd].
  unfold unique_articles. rewrite Hd. cbn [bind].
  destruct (url_dict_output all d Hd) as (_ & Hsub & _ & _).
  destruct (category_stats_returns (process_articles self (values d))) as (data & Hdata & Hart).
  exists data. split; [exact Hdata|]. rewrite Hart.
  apply Forall_prefix. apply process_articles_titles.
  apply Forall_forall. intros a Ha. rewrite Forall_forall in Hwf.
  exact (proj2 (Hwf a (Hsub a Ha))).
Qed.

Lemma categorize_loop_forall (Q : CategoryStats -> Prop) (self : MarketSentimentAnalyzer)
    (net : NewsSource) (items : list (string * list string)) :
  (forall assets, exists data, analyze_category self net assets = Ok data /\ Q data) ->
  forall acc, Forall (fun kv => Q (snd kv)) acc ->
    exists results, categorize_loop self net items acc = Ok results /\
                    Forall (fun kv => Q (snd kv)) results.
Proof.
  intros Hcat. induction items as [|[category assets] items IH]; simpl; intros acc Hacc.
  - now exists acc.
  - destruct (Hcat assets) as (data & Hdata & HQ). rewrite Hdata. cbn [bind].
    apply IH. now apply Forall_values_dict_set.
Qed.

End CompletionFacts.

(** A run completes on every well-formed feed: when each fetch either
    fails softly or returns article objects that all have a url key and a
    title that is not [null], [generate_report] returns a report, whatever
    the classifier does. *)
Theorem well_formed_feed_completes {R : Runtime} (self : MarketSentimentAnalyzer)
    (net : NewsSource) (now : string) :
  (forall kw, exists arts, fetch_news net kw = Ok arts /\ Forall well_formed arts) ->
  exists report, generate_report self net now = Ok report.
Proof.
  intros Hnet.
  destruct (categorize_loop_forall
              (fun d => Forall (fun r => title r <> PyNone) (articles d)) self net
              (asset_categories self)
              (fun assets => analyze_category_well_formed self net assets Hnet)
              [] (Forall_nil _)) as (results & Hrun & Hall).
  assert (Forall (fun r => title r <> PyNone) (sampled results)) as Htitles.
  { unfold sampled. apply Forall_concat. apply Forall_map. exact Hall. }
  destruct (scan_articles_ok self (sampled results) Htitles []) as [st Hst].
  unfold generate_report, categorize_and_analyze. rewrite Hrun. cbn [bind].
  rewrite (identify_top_assets_ok self results st Hst). cbn [bind]. now eexists.
Qed.

Lemma well_formed_feed_completes_witness :
  exists report, generate_report raising_analyzer desk_net "2024-05-01T09:00:00" = Ok report.
Proof.
  apply (well_formed_feed_completes raising_analyzer desk_net "2024-05-01T09:00:00").
  intros kw. unfold fetch_news, desk_net.
  destruct (String.eqb kw "gold"); [|destruct (String.eqb kw "GLD")];
    eexists; (split; [reflexivity|]); repeat constructor; discriminate.
Defined.

(* ================================================================== *)
(** ** More on persistence and the drivers *)
(* ================================================================== *)

Lemma write_chunks_spec (chunks : list string) :
  forall fail_at content,
    exists k, (k <= List.length chunks)%nat /\
      write_chunks chunks fail_at content
      = (content ++ written (firstn k chunks),
         match fail_at with
         | Some n => (List.length chunks <=? n)%nat
         | None => true
         end) /\
      (match fail_at with Some n => (List.length chunks <=? n)%nat | None => true end = true ->
       k = List.length chunks).
Proof.
  induction chunks as [|c chunks IH]; intros fail_at content.
  - exists 0%nat. simpl. rewrite string_app_nil_r. destruct fail_at; repeat split; lia.
  - destruct fail_at as [[|n]|].
    + exists 0%nat. simpl. rewrite string_app_nil_r. repeat split; [lia | discriminate].
    + destruct (IH (Some n) (content ++ c)) as (k & Hk & Hrun & Hdone).
      exists (S k). cbn [write_chunks firstn written fold_right List.length Nat.leb].
      rewrite Hrun, string_app_assoc. repeat split; [lia|].
      intros H. now rewrite (Hdone H).
    + destruct (IH None (content ++ c)) as (k & Hk & Hrun & Hdone).
      exists (S k). cbn [write_chunks firstn written fold_right List.length].
      rewrite Hrun, string_app_assoc. repeat split; [lia|].
      intros _. now rewrite (Hdone eq_refl).
Qed.

(** The value of [save_report] can be trusted: when it is the file name,
    the store holds the complete serialization of the report; when it is
    [None], a fault occurred and the store is either untouched or holds a
    prefix of the pieces of the new serialization. *)
Theorem save_report_value_is_reliable {R : Runtime} (json_chunks : Report -> list string)
    (report : Report) (filename : string) (fault : io_fault)
    (stored stored' : option string) (value : option string) :
  save_report json_chunks report filename fault stored = (stored', value) ->
  (forall f, value = Some f ->
     f = filename /\ stored' = Some (written (json_chunks report))) /\
  (value = None ->
     fault <> NoFault /\
     (stored' = stored \/
      exists k, (k <= List.length (json_chunks report))%nat /\
                stored' = Some (written (firstn k (json_chunks report))))).
Proof.
  unfold save_report. destruct fault as [| |n].
  - destruct (write_chunks_spec (json_chunks report) None "") as (k & Hk & -> & Hdone).
    intros H. injection H as <- <-. rewrite (Hdone eq_refl), firstn_all. split.
    + intros f Hf. injection Hf as <-. now split.
    + discriminate.
  - intros H. injection H as <- <-. split; [discriminate|]. intros _. split; [discriminate|].
    now left.
  - destruct (write_chunks_spec (json_chunks report) (Some n) "") as (k & Hk & -> & Hdone).
    intros H. injection H as <- Hvalue. split.
    + intros f Hf. destruct (List.length (json_chunks report) <=? n)%nat; [|congruence].
      rewrite (Hdone eq_refl), firstn_all. split; congruence.
    + intros _. split; [discriminate|]. right. now exists k.
Qed.

Lemma save_report_value_is_reliable_witness :
  (forall f, @None string = Some f ->
     f = "market_sentiment_data.json" /\
     Some "{" = Some (written (three_pieces blank_report))) /\
  (@None string = None ->
     WriteFails 1 <> NoFault /\
     (Some "{" = Some previous_document \/
      exists k, (k <= List.length (three_pieces blank_report))%nat /\
                Some "{" = Some (written (firstn k (three_pieces blank_report))))).
Proof.
  apply (save_report_value_is_reliable three_pieces blank_report
           "market_sentiment_data.json" (WriteFails 1) (Some previous_document)).
  reflexivity.
Defined.

(** A manual trigger answers 500 and leaves the store alone when the
    analysis raises.  Once the analysis has returned it answers 200
    whatever becomes of the save: also when [open] failed and the old
    document stays, and when a write failed and only a prefix of the new
    document is stored.  The scheduled driver leaves the same store. *)
Theorem trigger_answers_200_whatever_the_save {R : Runtime}
    (json_chunks : Report -> list string) (self : MarketSentimentAnalyzer)
    (net : NewsSource) (now : string) (stored : option string) :
  (forall e, generate_report self net now = Raise e ->
     forall fault,
       Serving.trigger_analysis json_chunks self net now fault stored = (500, stored)) /\
  (forall report, generate_report self net now = Ok report ->
     Serving.trigger_analysis json_chunks self net now NoFault stored
     = (200, Some (written (json_chunks report))) /\
     Serving.trigger_analysis json_chunks self net now OpenFails stored = (200, stored) /\
     (forall n, (n < List.length (json_chunks report))%nat ->
        Serving.trigger_analysis json_chunks self net now (WriteFails n) stored
        = (200, Some (written (firstn n (json_chunks report)))))) /\
  (forall fault,
     Serving.scheduled_analysis json_chunks self net now fault stored
     = snd (Serving.trigger_analysis json_chunks self net now fault stored)).
Proof.
  unfold Serving.trigger_analysis, Serving.scheduled_analysis. repeat split.
  - intros e He fault. now rewrite He.
  - rewrite H. unfold save_report. now rewrite write_chunks_all.
  - now rewrite H.
  - intros n Hn. rewrite H. unfold save_report. now rewrite write_chunks_fail.
  - intros fault. now destruct (generate_report self net now).
Qed.

Lemma trigger_answers_200_whatever_the_save_witness :
  Serving.trigger_analysis (fun _ => ["{"; "report"; "}"]) desk_analyzer desk_net
    "2024-05-01T09:00:00" (WriteFails 1) (Some previous_document)
  = (200, Some (written (firstn 1 ["{"; "report"; "}"]))).
Proof.
  apply (proj1 (proj2 (trigger_answers_200_whatever_the_save
                         (fun _ => ["{"; "report"; "}"]) desk_analyzer desk_net
                         "2024-05-01T09:00:00" (Some previous_document)))
           desk_report desk_report_run).
  simpl. lia.
Defined.

Lemma both_locked_never_overlap_witness :
  exists s,
    App.run [App.Scheduler; App.Scheduler; App.Scheduler; App.Scheduler;
             App.Handler; App.Handler] both_locked = Some s /\
    App.overlapping s = false.
Proof.
  eexists. split; [reflexivity|].
  apply (both_locked_never_overlap
           [App.Scheduler; App.Scheduler; App.Scheduler; App.Scheduler;
            App.Handler; App.Handler]).
  reflexivity.
Defined.

(* ================================================================== *)
(** ** The ranking is bounded by the samples *)
(* ================================================================== *)

Section BoundFacts.
Context {R : Runtime}.

Lemma scan_articles_nodup (self : MarketSentimentAnalyzer) (sample : list ClassifiedArticle) :
  forall st st', NoDup (keys st) -> scan_articles self sample st = Ok st' -> NoDup (keys st').
Proof.
  assert (forall a ks st st', NoDup (keys st) -> scan_assets a ks st = Ok st' ->
                              NoDup (keys st')) as Hassets.
  { intros a. induction ks as [|k ks IH]; intros st st' Hst Hrun; simpl in Hrun.
    - now apply Ok_inj in Hrun; subst.
    - destruct (mentions_asset k a) as [hit|]; simpl in Hrun; [|discriminate].
      refine (IH _ _ _ Hrun). destruct hit; [|exact Hst].
      rewrite record_mention_bump.
      now apply (NoDup_keys_dict_set _ _ String.eqb String.eqb_eq). }
  induction sample as [|a sample IH]; intros st st' Hst Hrun; simpl in Hrun.
  - now apply Ok_inj in Hrun; subst.
  - rewrite scan_lists_concat in Hrun.
    destruct (scan_assets a (List.concat (values (asset_categories self))) st) as [st1|] eqn:E;
      simpl in Hrun; [|discriminate].
    exact (IH _ _ (Hassets _ _ _ _ Hst E) Hrun).
Qed.

Lemma in_dict_get (k : string) (v : AssetAcc) (d : dict string AssetAcc) :
  NoDup (keys d) -> In (k, v) d -> dict_get String.eqb k d = Some v.
Proof.
  unfold keys. induction d as [|[k' v'] d IH]; simpl; intros Hnd Hin; [contradiction|].
  inversion Hnd as [|? ? Hnotin Hnd']; subst.
  destruct Hin as [Heq|Hin].
  - injection Heq as -> ->. now rewrite String.eqb_refl.
  - destruct (String.eqb_spec k k') as [->|Hne]; [|now apply IH].
    exfalso. apply Hnotin. change k' with (fst (k', v)). now apply in_map.
Qed.

Lemma titles_strings_or_not (l : list ClassifiedArticle) :
  Forall (fun a => title a <> PyNone) l \/ Exists (fun a => title a = PyNone) l.
Proof.
  induction l as [|a l [IH|IH]].
  - left. constructor.
  - destruct (title a) as [|t] eqn:Ht.
    + right. now left.
    + left. constructor; [congruence | exact IH].
  - right. now right.
Qed.

Lemma length_filter_le {A : Type} (p : A -> bool) (l : list A) :
  (List.length (filter p l) <= List.length l)%nat.
Proof.
  induction l as [|a l IH]; simpl; [lia|]. destruct (p a); simpl; lia.
Qed.

Lemma run_samples_bounded (self : MarketSentimentAnalyzer) (net : NewsSource)
    (results : dict string CategoryStats) :
  categorize_and_analyze self net = Ok results ->
  (List.length (sampled results) <= 10 * List.length results)%nat.
Proof.
  intros Hrun.
  pose proof (categorize_and_analyze_values
                (fun d => (List.length (articles d) <= 10)%nat) self net) as Hall.
  assert (Forall (fun kv => (List.length (articles (snd kv)) <= 10)%nat) results) as Hres.
  { apply Hall; [|exact Hrun]. intros l d Hd.
    destruct (category_stats_sample _ _ Hd) as (-> & _). rewrite length_firstn. lia. }
  clear - Hres. unfold sampled.
  induction Hres as [|kv results Hkv _ IH]; simpl; [lia|].
  rewrite length_app. lia.
Qed.

End BoundFacts.

(** With keyword lists free of repetitions, no ranked entry of a generated
    report has more mentions than 10 per category: the ranking only sees
    the samples, and each holds at most 10 articles. *)
Theorem ranked_mentions_at_most_ten_per_category {R : Runtime}
    (self : MarketSentimentAnalyzer) (net : NewsSource) (now : string) (report : Report) :
  NoDup (all_keywords self) ->
  generate_report self net now = Ok report ->
  forall x, In x (ranked (top_assets report)) ->
    mentions x <= 10 * Z.of_nat (List.length (detailed_category_data report)).
Proof.
  intros Hnd Hgen x Hx. unfold generate_report in Hgen.
  destruct (categorize_and_analyze self net) as [results|] eqn:Hrun; simpl in Hgen;
    [|discriminate].
  destruct (identify_top_assets self results) as [top|] eqn:Htop; simpl in Hgen;
    [|discriminate].
  apply Ok_inj in Hgen. subst report. cbn [top_assets detailed_category_data] in *.
  destruct (identify_top_assets_scanned self results top Htop) as [st Hscan].
  destruct (ranked_from_stats self results st top Hscan Htop x Hx)
    as ([kw acc] & Hitem & Hpos & ->).
  assert (In kw (all_keywords self)) as Hkw.
  { assert (Forall (fun kv => In (fst kv) (all_keywords self)) st) as Hall.
    { refine (scan_articles_invariant (fun kw _ => In kw (all_keywords self)) (fun _ => True)
                self _ (sampled results) _ [] st (Forall_nil _) Hscan).
      - intros a k0 acc0 _ Hk _. exact Hk.
      - apply Forall_forall. intros; exact Logic.I. }
    rewrite Forall_forall in Hall. exact (Hall _ Hitem). }
  assert (Forall (fun a => title a <> PyNone) (sampled results)) as Htitles.
  { destruct (titles_strings_or_not (sampled results)) as [H|H]; [exact H|].
    exfalso.
    assert (all_keywords self <> []) as Hne by (intros E; rewrite E in Hkw; inversion Hkw).
    rewrite (scan_articles_null_title self _ Hne H []) in Hscan. discriminate. }
  destruct (collect_asset_stats_attributes self results Hnd Htitles [])
    as (st' & Hrun' & Hacc).
  rewrite collect_asset_stats_scan, Hscan in Hrun'. apply Ok_inj in Hrun'. subst st'.
  specialize (Hacc kw Hkw).
  assert (acc_of kw st = acc) as Hget.
  { unfold acc_of.
    now rewrite (in_dict_get kw acc st
                   (scan_articles_nodup self _ [] st (NoDup_nil _) Hscan) Hitem). }
  rewrite Hget in Hacc. subst acc. unfold to_stat, tally. cbn [mentions snd acc_mentions acc_of
    dict_get acc_zero].
  pose proof (length_filter_le (title_matches kw) (sampled results)) as Hle.
  pose proof (run_samples_bounded self net results Hrun) as Hbound. lia.
Qed.

Lemma ranked_mentions_at_most_ten_per_category_witness :
  generate_report desk_analyzer desk_net "2024-05-01T09:00:00" = Ok desk_report /\
  forall x, In x (ranked (top_assets desk_report)) ->
    mentions x <= 10 * Z.of_nat (List.length (detailed_category_data desk_report)).
Proof.
  split; [exact desk_report_run|].
  apply (ranked_mentions_at_most_ten_per_category desk_analyzer desk_net
           "2024-05-01T09:00:00" desk_report).
  - repeat constructor; simpl; intuition discriminate.
  - exact desk_report_run.
Defined.
